(** * cnn_mnist: the model function and the driver of Images/cnn_mnist.ipynb

    The notebook builds a TensorFlow graph with the layers API and hands the
    model function to an Estimator.  The embedding below follows the two
    Python functions statement by statement:

    - a tensor is the symbolic expression of the graph operation that
      produces it; every [tf.*] call appends its operation to the default
      graph, which is threaded as state;
    - Python control flow (early [return], exceptions, a local variable that
      is assigned on one branch only) is kept in a small monad with three
      outcomes;
    - shapes follow TensorFlow's shape rules for the operations used, and
      the few operations whose values matter to the properties (arg-max,
      softmax, dropout) get a value semantics over the reals. *)

From Stdlib Require Import ZArith NArith QArith Reals Lra Lia List.
From stdpp Require Import base option strings gmap.

Set Warnings "-register-all".

(** ** Python side: exceptions, outcomes, the statement monad *)

Inductive exn :=
| KeyError (key : string)
| UnboundLocalError (var : string)
| ValueError (msg : string)
| IOError (msg : string).

(** How a statement ends: it falls through to the next one, it executes
    [return], or it raises. *)
Inductive outcome (R A : Type) :=
| Normal (a : A)
| Returned (r : R)
| Raised (e : exn).
Arguments Normal {R A} a.
Arguments Returned {R A} r.
Arguments Raised {R A} e.

Definition M (S R A : Type) : Type := S -> outcome R A * S.

Definition ret {S R A} (a : A) : M S R A := fun s => (Normal a, s).

Definition bind {S R A B} (m : M S R A) (k : A -> M S R B) : M S R B :=
  fun s =>
    match m s with
    | (Normal a, s') => k a s'
    | (Returned r, s') => (Returned r, s')
    | (Raised e, s') => (Raised e, s')
    end.

Definition return_ {S R} (r : R) : M S R unit := fun s => (Returned r, s).
Definition raise {S R A} (e : exn) : M S R A := fun s => (Raised e, s).
Definition get {S R} : M S R S := fun s => (Normal s, s).
Definition modify {S R} (f : S -> S) : M S R unit := fun s => (Normal tt, f s).

#[global] Instance M_ret {S R} : MRet (M S R) := @ret S R.
#[global] Instance M_bind {S R} : MBind (M S R) := fun A B k m => bind m k.

(** [if c: body] with no [else]. *)
Definition when {S R} (c : bool) (body : M S R unit) : M S R unit :=
  if c then body else ret tt.

(** Reading a local variable that is assigned on some paths only. *)
Definition local {S R A} (var : string) (v : option A) : M S R A :=
  match v with
  | Some a => ret a
  | None => raise (UnboundLocalError var)
  end.

(** [d[key]] on a dict. *)
Definition getitem {S R A} (d : gmap string A) (key : string) : M S R A :=
  match d !! key with
  | Some a => ret a
  | None => raise (KeyError key)
  end.

(** ** Tensors and the graph *)

Inductive dtype := float32 | int32 | int64 | uint8.
Inductive activation := relu.
Inductive padding := same | valid.

Definition shape := list N.

(** A tensor is the graph operation that produces it. *)
Inductive tensor :=
| Placeholder (name : string) (dt : dtype) (sh : shape)
| Reshape (t : tensor) (target : list Z)
| Conv2d (inputs : tensor) (filters : N) (kernel_size : N * N)
         (pad : padding) (act : option activation)
| MaxPooling2d (inputs : tensor) (pool_size : N * N) (strides : N)
| Dense (inputs : tensor) (units : N) (act : option activation)
| Dropout (inputs : tensor) (rate : Q) (training : bool)
| ArgMax (input : tensor) (axis : N)
| Softmax (logits : tensor) (name : string)
| Cast (x : tensor) (dt : dtype)
| OneHot (indices : tensor) (depth : N)
| SoftmaxCrossEntropy (onehot_labels logits : tensor)
| GlobalStep
| Minimize (learning_rate : Q) (loss : tensor) (global_step : option tensor)
| Accuracy (labels predictions : tensor).

(** The default graph: the operations created so far (oldest first), the
    global-step variable if the caller created one, and the source lines of
    the statements executed so far. *)
Record graph := Graph {
  nodes : list tensor;
  global_step : option tensor;
  lines : list nat
}.

Definition empty_graph : graph := Graph [] None [].

Definition G := M graph.

(** [at_line n stmt] is statement [stmt], written at line [n] of the
    notebook file. *)
Definition at_line {R A} (n : nat) (stmt : G R A) : G R A :=
  fun g => stmt (Graph (nodes g) (global_step g) (lines g ++ [n])).

(** ** Shape rules *)

Definition numel (s : shape) : N := fold_right N.mul 1%N s.

Definition ceil_div (a b : N) : N := ((a + b - 1) / b)%N.

(** Product of the explicit dimensions of a reshape target and the number of
    [-1] entries in it; [None] on a dimension below [-1]. *)
Fixpoint target_known (target : list Z) : option (N * nat) :=
  match target with
  | [] => Some (1%N, 0)
  | d :: rest =>
      match target_known rest with
      | None => None
      | Some (p, holes) =>
          if (d =? -1)%Z then Some (p, S holes)
          else if (d <? 0)%Z then None
          else Some ((Z.to_N d * p)%N, holes)
      end
  end.

(** [tf.reshape]: at most one dimension may be [-1]; it is computed from the
    number of elements of the input. *)
Definition reshape_shape (s : shape) (target : list Z) : option shape :=
  match target_known target with
  | Some (p, 0) =>
      if (numel s =? p)%N then Some (map Z.to_N target) else None
  | Some (p, 1) =>
      if (p =? 0)%N then None
      else if (numel s mod p =? 0)%N
           then Some (map (fun d => if (d =? -1)%Z then (numel s / p)%N
                                    else Z.to_N d) target)
           else None
  | _ => None
  end.

(** One spatial dimension through a window of size [k] moved by [stride]. *)
Definition window_dim (pad : padding) (d k stride : N) : option N :=
  if (stride =? 0)%N then None
  else match pad with
       | same => Some (ceil_div d stride)
       | valid => if (d <? k)%N then None else Some ((d - k) / stride + 1)%N
       end.

Fixpoint replace_last (s : shape) (u : N) : option shape :=
  match s with
  | [] => None
  | [_] => Some [u]
  | d :: rest => option_map (cons d) (replace_last rest u)
  end.

Definition shape_eqb (a b : shape) : bool := bool_decide (a = b).

(** The shape of the output of an operation, [None] when the shapes of its
    inputs do not fit.  Shapes only: the element types that the tensors
    record are not checked. *)
Fixpoint shape_of (t : tensor) : option shape :=
  match t with
  | Placeholder _ _ s => Some s
  | Reshape t target =>
      match shape_of t with
      | Some s => reshape_shape s target
      | None => None
      end
  | Conv2d inputs filters (kh, kw) pad _ =>
      match shape_of inputs with
      | Some [b; h; w; _] =>
          match window_dim pad h kh 1, window_dim pad w kw 1 with
          | Some h', Some w' => Some [b; h'; w'; filters]
          | _, _ => None
          end
      | _ => None
      end
  | MaxPooling2d inputs (ph, pw) strides =>
      match shape_of inputs with
      | Some [b; h; w; c] =>
          match window_dim valid h ph strides, window_dim valid w pw strides with
          | Some h', Some w' => Some [b; h'; w'; c]
          | _, _ => None
          end
      | _ => None
      end
  | Dense inputs units _ =>
      match shape_of inputs with
      | Some (b :: d :: rest) => replace_last (b :: d :: rest) units
      | _ => None
      end
  | Dropout inputs _ _ => shape_of inputs
  | ArgMax input axis =>
      match shape_of input, axis with
      | Some [b; n], 1%N => if (n =? 0)%N then None else Some [b]
      | Some [b; n], 0%N => if (b =? 0)%N then None else Some [n]
      | _, _ => None
      end
  | Softmax logits _ =>
      match shape_of logits with
      | Some (d :: rest) => Some (d :: rest)
      | _ => None
      end
  | Cast x _ => shape_of x
  | OneHot indices depth =>
      match shape_of indices with
      | Some s => Some (s ++ [depth])
      | None => None
      end
  | SoftmaxCrossEntropy onehot_labels logits =>
      match shape_of onehot_labels, shape_of logits with
      | Some a, Some b => if shape_eqb a b then Some [] else None
      | _, _ => None
      end
  | GlobalStep => Some []
  | Minimize _ loss _ =>
      match shape_of loss with
      | Some [] => Some []
      | _ => None
      end
  | Accuracy labels predictions =>
      match shape_of labels, shape_of predictions with
      | Some a, Some b => if shape_eqb a b then Some [] else None
      | _, _ => None
      end
  end.

(** Creating an operation adds it to the graph and yields its output; the
    library infers the shape of the output on the spot and raises when the
    shapes of the inputs do not fit the operation.  A failed check leaves
    the graph as it was: what the library may leave behind of a failed call
    is not modelled. *)
Definition emit {R} (t : tensor) : G R tensor :=
  fun g =>
    match shape_of t with
    | Some _ => (Normal t, Graph (nodes g ++ [t]) (global_step g) (lines g))
    | None => (Raised (ValueError "incompatible shapes"), g)
    end.

(** ** The library calls the notebook makes

    Each function creates one graph operation; keyword arguments of the
    Python call are positional here, in the order the notebook writes
    them.  Defaults the notebook leaves implicit (stride 1 for [conv2d],
    [valid] padding for [max_pooling2d], batch size 128 for
    [numpy_input_fn]) are part of the rules or named constants. *)

Module EstimatorSpec.
Record t := make {
  mode : string;
  predictions : option (gmap string tensor);
  loss : option tensor;
  train_op : option tensor;
  eval_metric_ops : option (gmap string tensor)
}.
End EstimatorSpec.

(** What the driver sees of the outside: in-memory arrays, the data sets on
    disk, and what the estimator and [print] did, oldest first. *)
Record ndarray := NdArray {
  arr_name : string;
  arr_dtype : dtype;
  arr_shape : shape
}.

Record DataSet := { images : ndarray; labels : ndarray }.
Record Datasets := { train : DataSet; test : DataSet }.

Record InputFn := {
  x : gmap string ndarray;
  y : ndarray;
  batch_size : N;
  num_epochs : option N;
  shuffle : bool
}.

Record Hook := { tensors : gmap string string; every_n_iter : N }.

Inductive event :=
| Trained (model_dir : string) (input_fn : InputFn) (steps : N)
          (hooks : list Hook) (spec : EstimatorSpec.t)
| Evaluated (model_dir : string) (input_fn : InputFn) (spec : EstimatorSpec.t)
| Printed (results : gmap string tensor).

Record world := World {
  datasets : gmap string Datasets;
  events : list event
}.

Definition log {R} (e : event) : M world R unit :=
  modify (fun w => World (datasets w) (events w ++ [e])).

Definition print {R} (results : gmap string tensor) : M world R unit :=
  log (Printed results).

Module np.
(** [np.asarray(a, dtype=dt)] *)
Definition asarray (a : ndarray) (dt : dtype) : ndarray :=
  NdArray (arr_name a) dt (arr_shape a).
End np.

Module tf.

Definition reshape {R} (t : tensor) (target : list Z) : G R tensor :=
  emit (Reshape t target).

Definition argmax {R} (input : tensor) (axis : N) : G R tensor :=
  emit (ArgMax input axis).

(** The node stands for the source expression [tf.cast(x, dt)], also where
    the library hands back [x] itself because it has type [dt] already. *)
Definition cast {R} (x : tensor) (dt : dtype) : G R tensor :=
  emit (Cast x dt).

Definition one_hot {R} (indices : tensor) (depth : N) : G R tensor :=
  emit (OneHot indices depth).

Module nn.
Definition relu : activation := relu.
Definition softmax {R} (logits : tensor) (name : string) : G R tensor :=
  emit (Softmax logits name).
End nn.

Module layers.
Definition conv2d {R} (inputs : tensor) (filters : N) (kernel_size : N * N)
    (pad : padding) (act : option activation) : G R tensor :=
  emit (Conv2d inputs filters kernel_size pad act).

Definition max_pooling2d {R} (inputs : tensor) (pool_size : N * N)
    (strides : N) : G R tensor :=
  emit (MaxPooling2d inputs pool_size strides).

Definition dense {R} (inputs : tensor) (units : N)
    (act : option activation) : G R tensor :=
  emit (Dense inputs units act).

Definition dropout {R} (inputs : tensor) (rate : Q) (training : bool)
  : G R tensor :=
  emit (Dropout inputs rate training).
End layers.

Module losses.
Definition softmax_cross_entropy {R} (onehot_labels logits : tensor)
  : G R tensor :=
  emit (SoftmaxCrossEntropy onehot_labels logits).
End losses.

Module metrics.
Definition accuracy {R} (labels predictions : tensor) : G R tensor :=
  emit (Accuracy labels predictions).
End metrics.

Module train.
Record Optimizer := GradientDescentOptimizer { learning_rate : Q }.

Definition get_global_step {R} : G R (option tensor) :=
  fun g => (Normal (global_step g), g).

(** [optimizer.minimize(loss, global_step)] *)
Definition minimize {R} (optimizer : Optimizer) (loss : tensor)
    (gs : option tensor) : G R tensor :=
  emit (Minimize (learning_rate optimizer) loss gs).

Definition LoggingTensorHook (tensors : gmap string string)
    (every_n_iter : N) : Hook :=
  {| tensors := tensors; every_n_iter := every_n_iter |}.
End train.

Module contrib.
Module learn.
Module datasets.
Definition load_dataset {R} (name : string) : M world R Datasets :=
  w ← get;
  match datasets w !! name with
  | Some d => mret d
  | None => raise (IOError name)
  end.
End datasets.
End learn.
End contrib.

Module estimator.
Module ModeKeys.
Definition TRAIN : string := "train".
Definition EVAL : string := "eval".
Definition PREDICT : string := "infer".
End ModeKeys.

(** The constructor checks that the arguments its mode needs are
    there. *)
Definition EstimatorSpec {S R} (mode : string)
    (predictions : option (gmap string tensor))
    (loss train_op : option tensor)
    (eval_metric_ops : option (gmap string tensor))
  : M S R EstimatorSpec.t :=
  if bool_decide (train_op = None) && String.eqb mode ModeKeys.TRAIN
  then raise (ValueError "Missing train_op.")
  else if bool_decide (loss = None)
          && (String.eqb mode ModeKeys.TRAIN || String.eqb mode ModeKeys.EVAL)
  then raise (ValueError "Missing loss.")
  else if bool_decide (predictions = None) && String.eqb mode ModeKeys.PREDICT
  then raise (ValueError "Missing predictions.")
  else ret (EstimatorSpec.make mode predictions loss train_op eval_metric_ops).

Module inputs.
Definition default_batch_size : N := 128.

Definition numpy_input_fn (x : gmap string ndarray) (y : ndarray)
    (batch_size : N) (num_epochs : option N) (shuffle : bool) : InputFn :=
  {| x := x; y := y; batch_size := batch_size;
     num_epochs := num_epochs; shuffle := shuffle |}.
End inputs.

Definition ModelFn : Type :=
  gmap string tensor -> tensor -> string -> G EstimatorSpec.t unit.

Record Estimator := { model_fn : ModelFn; model_dir : string }.

(** One batch of an array, as the tensor the input pipeline feeds. *)
Definition batch_of (b : N) (a : ndarray) : tensor :=
  Placeholder (arr_name a) (arr_dtype a) (b :: tail (arr_shape a)).

Definition tensor_name (t : tensor) : option string :=
  match t with
  | Placeholder name _ _ => Some name
  | Softmax _ name => Some name
  | _ => None
  end.

Definition has_tensor (g : graph) (name : string) : bool :=
  existsb (fun t => bool_decide (tensor_name t = Some name)) (nodes g).

(** The estimator builds a fresh graph with a global step and calls the
    model function on one batch with the mode of the method. *)
Definition call_model_fn {R} (est : Estimator) (input_fn : InputFn)
    (mode : string) : M world R (EstimatorSpec.t * graph) :=
  let features := batch_of (batch_size input_fn) <$> x input_fn in
  let labels := batch_of (batch_size input_fn) (y input_fn) in
  match model_fn est features labels mode (Graph [] (Some GlobalStep) []) with
  | (Returned spec, g) => mret (spec, g)
  | (Raised e, _) => raise e
  | (Normal _, _) =>
      raise (ValueError "model_fn should return an EstimatorSpec.")
  end.

(** [est.train(input_fn, steps, hooks)]: a hook can only log tensors
    that the graph of the model function has. *)
Definition train_ {R} (est : Estimator) (input_fn : InputFn) (steps : N)
    (hooks : list Hook) : M world R unit :=
  '(spec, g) ← call_model_fn est input_fn ModeKeys.TRAIN;
  match List.filter (fun name => negb (has_tensor g name))
               (concat (map (fun h => snd <$> map_to_list (tensors h)) hooks)) with
  | [] => log (Trained (model_dir est) input_fn steps hooks spec)
  | name :: _ => raise (KeyError name)
  end.

(** [est.evaluate(input_fn)]: the results are the metrics of the spec
    together with the loss and the global step. *)
Definition evaluate {R} (est : Estimator) (input_fn : InputFn)
  : M world R (gmap string tensor) :=
  '(spec, g) ← call_model_fn est input_fn ModeKeys.EVAL;
  match EstimatorSpec.loss spec with
  | None => raise (ValueError "Missing loss.")
  | Some loss =>
      log (Evaluated (model_dir est) input_fn spec);;
      mret (<["loss" := loss]> (<["global_step" := GlobalStep]>
              (default ∅ (EstimatorSpec.eval_metric_ops spec))))
  end.
End estimator.

End tf.

(** ** The model function (notebook lines 56-119)

    The statements keep their order and their line numbers.  [train_op] is
    assigned inside the [if] of line 110 only, so the local is an [option]
    that line 113 reads with [local].  The statements after line 113 are
    part of the function and are embedded as written. *)

Import tf.estimator.

Definition cnn_model_fn (features : gmap string tensor) (labels : tensor)
    (mode : string) : G EstimatorSpec.t unit :=
  input_layer ← at_line 61 (
    x ← getitem features "x";
    tf.reshape x [-1; 28; 28; 1]%Z);
  conv1 ← at_line 65 (
    tf.layers.conv2d input_layer 32 (5, 5)%N same (Some tf.nn.relu));
  pool1 ← at_line 70 (tf.layers.max_pooling2d conv1 (2, 2)%N 2);
  conv2 ← at_line 74 (
    tf.layers.conv2d pool1 64 (5, 5)%N same (Some tf.nn.relu));
  pool2 ← at_line 76 (tf.layers.max_pooling2d conv2 (2, 2)%N 2);
  pool2_flat ← at_line 81 (tf.reshape pool2 [-1; 7 * 7 * 64]%Z);
  dense ← at_line 82 (tf.layers.dense pool2_flat 1024 (Some tf.nn.relu));
  dropout ← at_line 83 (
    tf.layers.dropout dense 0.4%Q (String.eqb mode ModeKeys.TRAIN));
  logits ← at_line 87 (tf.layers.dense dropout 10 None);
  predictions ← at_line 91 (
    classes ← tf.argmax logits 1;
    probabilities ← tf.nn.softmax logits "softmax_tensor";
    mret ({[ "classes" := classes; "probabilities" := probabilities ]}
            : gmap string tensor));
  at_line 98 (
    when (String.eqb mode ModeKeys.PREDICT) (at_line 99 (
      spec ← EstimatorSpec mode (Some predictions) None None None;
      return_ spec)));;
  onehot_labels ← at_line 103 (
    indices ← tf.cast labels int32;
    tf.one_hot indices 10);
  loss ← at_line 105 (tf.losses.softmax_cross_entropy onehot_labels logits);
  train_op ← at_line 110 (
    if String.eqb mode ModeKeys.TRAIN then
      optimizer ← at_line 111 (mret (tf.train.GradientDescentOptimizer 0.001%Q));
      train_op ← at_line 112 (
        gs ← tf.train.get_global_step;
        tf.train.minimize optimizer loss gs);
      mret (Some train_op)
    else mret None);
  at_line 113 (
    train_op ← local "train_op" train_op;
    spec ← EstimatorSpec mode None (Some loss) (Some train_op) None;
    return_ spec);;
  eval_metric_ops ← at_line 116 (
    classes ← getitem predictions "classes";
    accuracy ← tf.metrics.accuracy labels classes;
    mret ({[ "accuracy" := accuracy ]} : gmap string tensor));
  at_line 118 (
    spec ← EstimatorSpec mode None (Some loss) None (Some eval_metric_ops);
    return_ spec).

(** ** The driver (notebook lines 142-167) *)

Definition main (unused_argv : list string) : M world unit unit :=
  mnist ← tf.contrib.learn.datasets.load_dataset "mnist";
  let train_data := images (train mnist) in
  let train_labels := np.asarray (labels (train mnist)) int32 in
  let eval_data := images (test mnist) in
  let eval_labels := np.asarray (labels (test mnist)) int32 in
  let mnist_classifier :=
    {| model_fn := cnn_model_fn; model_dir := "/tmp/mnist_convnet_model" |} in
  let tensors_to_log : gmap string string :=
    {[ "probabilities" := "softmax_tensor" ]} in
  let logging_hook := tf.train.LoggingTensorHook tensors_to_log 50 in
  let train_input_fn :=
    inputs.numpy_input_fn {[ "x" := train_data ]} train_labels 100 None true in
  train_ mnist_classifier train_input_fn 20000 [logging_hook];;
  let eval_input_fn :=
    inputs.numpy_input_fn {[ "x" := eval_data ]} eval_labels
      inputs.default_batch_size (Some 1%N) false in
  eval_results ← evaluate mnist_classifier eval_input_fn;
  print eval_results.

(** The MNIST arrays as the loader returns them. *)
Definition mnist_data : Datasets :=
  {| train := {| images := NdArray "train/images" float32 [55000; 784]%N;
                 labels := NdArray "train/labels" uint8 [55000]%N |};
     test := {| images := NdArray "test/images" float32 [10000; 784]%N;
                labels := NdArray "test/labels" uint8 [10000]%N |} |}.

Definition mnist_world : world := World {[ "mnist" := mnist_data ]} [].

(** ** Values of the operations the predictions are made of

    The numerical kernels (convolution, pooling, dense layers, the loss) and
    the trained weights are the library's; an [oracle] stands for them.
    Arg-max, softmax and dropout are given by their defining equations over
    the reals; the rounding and the underflow of float32 are not
    modelled. *)

Module values.

Inductive value :=
| Floats (rows : list (list R))
| Ints (v : list Z).

Definition Rsum (l : list R) : R := fold_right Rplus 0%R l.

(** Position of the largest entry: [best] at [besti] so far, the rest of
    the row starting at position [i]. *)
Fixpoint argmax_from (best : R) (besti i : nat) (row : list R) : nat :=
  match row with
  | [] => besti
  | v :: rest =>
      if Rlt_dec best v then argmax_from v i (S i) rest
      else argmax_from best besti (S i) rest
  end.

Definition argmax_row (row : list R) : nat :=
  match row with
  | [] => 0
  | v :: rest => argmax_from v 0 1 rest
  end.

Definition softmax_row (row : list R) : list R :=
  map (fun v => (exp v / Rsum (map exp row))%R) row.

(** Training-time dropout: a kept entry is scaled by [1 / (1 - rate)],
    a dropped one is zero; [keep] is the random draw. *)
Definition dropout_row (rate : Q) (keep : list bool) (row : list R) : list R :=
  zip_with (fun (k : bool) v => if k then (v / (1 - Q2R rate))%R else 0%R)
           keep row.

Section eval.
Variable oracle : tensor -> option value.
Variable keep : list (list bool).

Fixpoint eval (t : tensor) : option value :=
  match t with
  | ArgMax input 1%N =>
      match eval input with
      | Some (Floats rows) =>
          Some (Ints (map (fun row => Z.of_nat (argmax_row row)) rows))
      | _ => None
      end
  | Softmax logits _ =>
      match eval logits with
      | Some (Floats rows) => Some (Floats (map softmax_row rows))
      | _ => None
      end
  | Dropout inputs rate training =>
      if training then
        match eval inputs with
        | Some (Floats rows) =>
            Some (Floats (zip_with (dropout_row rate) keep rows))
        | _ => None
        end
      else eval inputs
  | _ => oracle t
  end.
End eval.

End values.

(** * Properties *)

Import values.

(** ** Vocabulary *)

(** The operations of lines 61-95, in creation order, for input [x]. *)
Definition forward_ops (x : tensor) (training : bool) : list tensor :=
  let input_layer := Reshape x [-1; 28; 28; 1]%Z in
  let conv1 := Conv2d input_layer 32 (5, 5)%N same (Some relu) in
  let pool1 := MaxPooling2d conv1 (2, 2)%N 2 in
  let conv2 := Conv2d pool1 64 (5, 5)%N same (Some relu) in
  let pool2 := MaxPooling2d conv2 (2, 2)%N 2 in
  let pool2_flat := Reshape pool2 [-1; 3136]%Z in
  let dense := Dense pool2_flat 1024 (Some relu) in
  let dropout := Dropout dense 0.4%Q training in
  let logits := Dense dropout 10 None in
  [input_layer; conv1; pool1; conv2; pool2; pool2_flat; dense; dropout;
   logits; ArgMax logits 1; Softmax logits "softmax_tensor"].

Definition loss_ops (labels logits : tensor) : list tensor :=
  let indices := Cast labels int32 in
  let onehot_labels := OneHot indices 10 in
  [indices; onehot_labels; SoftmaxCrossEntropy onehot_labels logits].

Definition logits_of (x : tensor) (training : bool) : tensor :=
  Dense (Dropout (Dense (Reshape (MaxPooling2d (Conv2d (MaxPooling2d
    (Conv2d (Reshape x [-1; 28; 28; 1]%Z) 32 (5, 5)%N same (Some relu))
    (2, 2)%N 2) 64 (5, 5)%N same (Some relu)) (2, 2)%N 2) [-1; 3136]%Z)
    1024 (Some relu)) 0.4%Q training) 10 None.

Definition loss_of (labels logits : tensor) : tensor :=
  SoftmaxCrossEntropy (OneHot (Cast labels int32) 10) logits.

(** Lines 61-98, which every call on a well-shaped batch executes. *)
Definition lines_forward : list nat := [61; 65; 70; 74; 76; 81; 82; 83; 87; 91; 98].

Definition is_loss_op (t : tensor) : bool :=
  match t with SoftmaxCrossEntropy _ _ => true | _ => false end.
Definition is_train_op (t : tensor) : bool :=
  match t with Minimize _ _ _ => true | _ => false end.
Definition is_metric_op (t : tensor) : bool :=
  match t with Accuracy _ _ => true | _ => false end.

(** A run from [g] that ended in [r] executed neither line 116 nor line 118,
    created no metric operation, and did not fall off the end of the
    function; a spec it returned is for mode [mode], which then is PREDICT
    or TRAIN, and has no [eval_metric_ops]. *)
Definition metrics_unreached (mode : string) (g : graph)
    (r : outcome EstimatorSpec.t unit * graph) : Prop :=
  (exists ex, lines (snd r) = (lines g ++ ex)%list /\ ~ In 116 ex /\ ~ In 118 ex) /\
  (exists cr, nodes (snd r) = (nodes g ++ cr)%list /\
              forallb (fun t => negb (is_metric_op t)) cr = true) /\
  match fst r with
  | Returned spec =>
      EstimatorSpec.eval_metric_ops spec = None /\
      EstimatorSpec.mode spec = mode /\
      (mode = ModeKeys.PREDICT \/ mode = ModeKeys.TRAIN)
  | Raised _ => True
  | Normal _ => False
  end.

(** A run on input [x] created the operations of the forward pass first. *)
Definition creates_forward (g : graph) (x : tensor) (training : bool)
    (r : outcome EstimatorSpec.t unit * graph) : Prop :=
  exists rest, nodes (snd r) = (nodes g ++ forward_ops x training ++ rest)%list.

(** Images of 784 values each, one label per image. *)
Definition well_shaped (a_images a_labels : ndarray) : Prop :=
  exists n, arr_shape a_images = [n; 784]%N /\ arr_shape a_labels = [n].

(** ** A concrete batch: three flattened images and their labels *)

Definition x784 (B : N) : tensor := Placeholder "x" float32 [B; 784%N].
Definition y_of (B : N) : tensor := Placeholder "y" int32 [B].
Definition feats (B : N) : gmap string tensor := {[ "x" := x784 B ]}.

(** The scores of three examples, as some trained network could give them. *)
Definition sample_logits : list (list R) :=
  [[0; 0; 0; 0; 0; 0; 0; 1; 0; 0];
   [2; 0; 0; 0; 0; 0; 0; 0; 0; 0];
   [0; 0; 0; 1; 0; 0; 0; 0; 0; 3]]%R.

Definition sample_oracle (t : tensor) : option value :=
  Some (Floats sample_logits).

(** ** Vocabulary of the further properties *)

(** A run from [g] that ended in [r] only added operations, none of them a
    training operation unless the mode is TRAIN. *)
Definition training_guarded (mode : string) (g : graph)
    (r : outcome EstimatorSpec.t unit * graph) : Prop :=
  exists cr, nodes (snd r) = (nodes g ++ cr)%list /\
             (String.eqb mode ModeKeys.TRAIN = false ->
              forallb (fun t => negb (is_train_op t)) cr = true).

Definition is_trained (e : event) : bool :=
  match e with Trained _ _ _ _ _ => true | _ => false end.

(** A run of the driver from [w] that ended in [r] raised, kept the data
    sets, and recorded at most one event, a training. *)
Definition driver_summary (w : world) (r : outcome unit unit * world) : Prop :=
  (exists e, fst r = Raised e) /\
  datasets (snd r) = datasets w /\
  exists evs, events (snd r) = (events w ++ evs)%list /\
              length evs <= 1 /\ forallb is_trained evs = true.

(** ** Shapes along the forward pass *)

Lemma reshape_28 s B :
  numel s = (B * 784)%N ->
  reshape_shape s [-1; 28; 28; 1]%Z = Some [B; 28; 28; 1]%N.
Proof.
  intros Hn. unfold reshape_shape.
  change (target_known [-1; 28; 28; 1]%Z) with (Some (784%N, 1)).
  rewrite Hn. cbn [N.eqb].
  rewrite N.Div0.mod_mul, N.div_mul by discriminate.
  reflexivity.
Qed.

Lemma reshape_flat s B :
  numel s = (B * 3136)%N ->
  reshape_shape s [-1; 3136]%Z = Some [B; 3136]%N.
Proof.
  intros Hn. unfold reshape_shape.
  change (target_known [-1; 3136]%Z) with (Some (3136%N, 1)).
  rewrite Hn. cbn [N.eqb].
  rewrite N.Div0.mod_mul, N.div_mul by discriminate.
  reflexivity.
Qed.

Lemma shape_reshape_28 t s B :
  shape_of t = Some s -> numel s = (B * 784)%N ->
  shape_of (Reshape t [-1; 28; 28; 1]%Z) = Some [B; 28; 28; 1]%N.
Proof. intros Hs Hn. cbn [shape_of]. rewrite Hs. now apply reshape_28. Qed.

Lemma shape_reshape_flat t B :
  shape_of t = Some [B; 7; 7; 64]%N ->
  shape_of (Reshape t [-1; 3136]%Z) = Some [B; 3136]%N.
Proof.
  intros Hs. cbn [shape_of]. rewrite Hs. apply reshape_flat.
  cbn [numel fold_right]. lia.
Qed.

Lemma shape_conv_same t b h w c filters k act :
  shape_of t = Some [b; h; w; c] ->
  shape_of (Conv2d t filters k same act) = Some [b; h; w; filters].
Proof.
  intros Hs. destruct k as [kh kw]. cbn [shape_of]. rewrite Hs.
  unfold window_dim, ceil_div. cbn [N.eqb].
  now rewrite !N.add_sub, !N.div_1_r.
Qed.

Lemma shape_pool_28 t b c :
  shape_of t = Some [b; 28; 28; c]%N ->
  shape_of (MaxPooling2d t (2, 2)%N 2) = Some [b; 14; 14; c]%N.
Proof. intros Hs. cbn [shape_of]. now rewrite Hs. Qed.

Lemma shape_pool_14 t b c :
  shape_of t = Some [b; 14; 14; c]%N ->
  shape_of (MaxPooling2d t (2, 2)%N 2) = Some [b; 7; 7; c]%N.
Proof. intros Hs. cbn [shape_of]. now rewrite Hs. Qed.

Lemma shape_dense t b d units act :
  shape_of t = Some [b; d] ->
  shape_of (Dense t units act) = Some [b; units].
Proof. intros Hs. cbn [shape_of]. now rewrite Hs. Qed.

Lemma shape_dropout t sh rate training :
  shape_of t = Some sh -> shape_of (Dropout t rate training) = Some sh.
Proof. intros Hs. exact Hs. Qed.

Lemma shape_argmax_10 t b :
  shape_of t = Some [b; 10]%N -> shape_of (ArgMax t 1) = Some [b].
Proof. intros Hs. cbn [shape_of]. now rewrite Hs. Qed.

Lemma shape_softmax_10 t b name :
  shape_of t = Some [b; 10]%N -> shape_of (Softmax t name) = Some [b; 10]%N.
Proof. intros Hs. cbn [shape_of]. now rewrite Hs. Qed.

Lemma shape_cast t sh dt :
  shape_of t = Some sh -> shape_of (Cast t dt) = Some sh.
Proof. intros Hs. exact Hs. Qed.

Lemma shape_one_hot t b depth :
  shape_of t = Some [b] -> shape_of (OneHot t depth) = Some [b; depth].
Proof. intros Hs. cbn [shape_of]. now rewrite Hs. Qed.

Lemma shape_cross_entropy a b sh :
  shape_of a = Some sh -> shape_of b = Some sh ->
  shape_of (SoftmaxCrossEntropy a b) = Some [].
Proof.
  intros Ha Hb. cbn [shape_of]. rewrite Ha, Hb.
  unfold shape_eqb. now rewrite bool_decide_eq_true_2.
Qed.

Lemma shape_minimize loss rate gs :
  shape_of loss = Some [] -> shape_of (Minimize rate loss gs) = Some [].
Proof. intros Hs. cbn [shape_of]. now rewrite Hs. Qed.

Create HintDb shapes.
#[local] Hint Resolve shape_reshape_28 shape_reshape_flat shape_conv_same
  shape_pool_28 shape_pool_14 shape_dense shape_dropout shape_argmax_10
  shape_softmax_10 shape_cast shape_one_hot shape_cross_entropy
  shape_minimize : shapes.

Lemma logits_of_shape x s B training :
  shape_of x = Some s -> numel s = (B * 784)%N ->
  shape_of (logits_of x training) = Some [B; 10]%N.
Proof. intros Hs Hn. unfold logits_of. eauto 12 with shapes. Qed.

Lemma loss_of_shape labels logits B :
  shape_of labels = Some [B] -> shape_of logits = Some [B; 10]%N ->
  shape_of (loss_of labels logits) = Some [].
Proof. intros Hl Hg. unfold loss_of. eauto 6 with shapes. Qed.

(** ** Running the model function on a well-shaped batch *)

Lemma emit_ok {R} t sh ns gs ls :
  shape_of t = Some sh ->
  @emit R t (Graph ns gs ls) = (Normal t, Graph (ns ++ [t]) gs ls).
Proof. intros Hs. unfold emit. now rewrite Hs. Qed.

(** Weak-head evaluation of the left-hand side up to the next shape check,
    which [shape_step] discharges from the shape lemmas. *)
Ltac whd_lhs :=
  lazymatch goal with
  | |- ?l = ?r =>
      let l' := eval lazy head beta iota zeta delta -[shape_of] in l in
      change (l' = r); cbn [nodes global_step lines]
  end.

Ltac shape_step :=
  match goal with
  | |- context [shape_of ?t] =>
      let H := fresh "Hshape" in
      eassert (H : shape_of t = Some _) by eauto 15 with shapes;
      rewrite H; clear H
  end.

Ltac run_model Hx :=
  unfold cnn_model_fn, getitem; rewrite Hx;
  repeat match goal with
         | H : String.eqb _ _ = _ |- _ => rewrite !H
         end;
  whd_lhs; repeat (shape_step; whd_lhs);
  rewrite <- ?app_assoc.

Lemma run_predict features labels ns gs ls x s B :
  features !! "x" = Some x ->
  shape_of x = Some s -> numel s = (B * 784)%N ->
  cnn_model_fn features labels ModeKeys.PREDICT (Graph ns gs ls) =
  (Returned
     (EstimatorSpec.make ModeKeys.PREDICT
        (Some {[ "classes" := ArgMax (logits_of x false) 1;
                 "probabilities" := Softmax (logits_of x false) "softmax_tensor" ]})
        None None None),
   Graph (ns ++ forward_ops x false) gs (ls ++ lines_forward ++ [99])).
Proof.
  intros Hx Hs Hn. run_model Hx. reflexivity.
Qed.

Lemma run_train features labels ns gs ls x s B :
  features !! "x" = Some x ->
  shape_of x = Some s -> numel s = (B * 784)%N ->
  shape_of labels = Some [B] ->
  let logits := logits_of x true in
  let loss := loss_of labels logits in
  let train_op := Minimize 0.001%Q loss gs in
  cnn_model_fn features labels ModeKeys.TRAIN (Graph ns gs ls) =
  (Returned
     (EstimatorSpec.make ModeKeys.TRAIN None (Some loss) (Some train_op) None),
   Graph (ns ++ forward_ops x true ++ loss_ops labels logits ++ [train_op]) gs
         (ls ++ lines_forward ++ [103; 105; 110; 111; 112; 113])).
Proof.
  intros Hx Hs Hn Hl. run_model Hx. reflexivity.
Qed.

Lemma run_other features labels mode ns gs ls x s B :
  features !! "x" = Some x ->
  shape_of x = Some s -> numel s = (B * 784)%N ->
  shape_of labels = Some [B] ->
  String.eqb mode ModeKeys.PREDICT = false ->
  String.eqb mode ModeKeys.TRAIN = false ->
  cnn_model_fn features labels mode (Graph ns gs ls) =
  (Raised (UnboundLocalError "train_op"),
   Graph (ns ++ forward_ops x false ++ loss_ops labels (logits_of x false)) gs
         (ls ++ lines_forward ++ [103; 105; 110; 113])).
Proof.
  intros Hx Hs Hn Hl Hp Ht. run_model Hx. reflexivity.
Qed.

(** ** Running the model function on any input *)

Ltac whd_run :=
  lazymatch goal with
  | |- ?P ?l =>
      let l' := eval lazy head beta iota zeta delta -[shape_of] in l in
      change (P l'); cbn [nodes global_step lines]
  end.

Ltac split_shape :=
  match goal with
  | |- context [shape_of ?t] => destruct (shape_of t)
  end.

Ltac not_in :=
  cbn [In]; intros H; repeat destruct H as [H | H];
  try discriminate H; exact H.

Ltac close_run :=
  unfold metrics_unreached; cbn [fst snd nodes lines];
  rewrite <- ?app_assoc;
  split; [eexists; split; [reflexivity | split; not_in] |
  split; [first [ eexists; split; [reflexivity | reflexivity]
                | exists []; split; [now rewrite app_nil_r | reflexivity] ]
         | first [ exact I | repeat split; auto ] ]].

Lemma cnn_model_fn_metrics_unreached features labels mode g :
  metrics_unreached mode g (cnn_model_fn features labels mode g).
Proof.
  destruct g as [ns gs ls].
  unfold cnn_model_fn, getitem.
  destruct (features !! "x") as [x|].
  2:{ whd_run. unfold metrics_unreached; cbn [fst snd nodes lines].
      split; [exists [61]; split; [reflexivity | split; not_in] |
      split; [exists []; split; [now rewrite app_nil_r | reflexivity] | exact I]]. }
  destruct (String.eqb_spec mode ModeKeys.PREDICT) as [-> | Hp].
  - whd_run; repeat (split_shape; whd_run); close_run.
  - destruct (String.eqb_spec mode ModeKeys.TRAIN) as [-> | Ht].
    + whd_run; repeat (split_shape; whd_run); close_run.
    + whd_run; repeat (split_shape; whd_run); close_run.
Qed.

Lemma cnn_model_fn_creates_forward features labels mode g x s B :
  features !! "x" = Some x ->
  shape_of x = Some s -> numel s = (B * 784)%N ->
  creates_forward g x (String.eqb mode ModeKeys.TRAIN)
    (cnn_model_fn features labels mode g).
Proof.
  intros Hx Hs Hn. destruct g as [ns gs ls].
  unfold cnn_model_fn, getitem. rewrite Hx.
  destruct (String.eqb_spec mode ModeKeys.PREDICT) as [-> | Hp];
    [| destruct (String.eqb_spec mode ModeKeys.TRAIN) as [-> | Ht]];
    whd_run; repeat (first [shape_step | split_shape]; whd_run);
    unfold creates_forward; cbn [snd nodes]; rewrite <- ?app_assoc;
    eexists; reflexivity.
Qed.

(** ** Arg-max and softmax on a row *)

Lemma argmax_from_spec row : forall best besti i,
  besti < i ->
  (argmax_from best besti i row = besti /\
   Forall (fun v => (v <= best)%R) row) \/
  (i <= argmax_from best besti i row < i + length row /\
   exists v, nth_error row (argmax_from best besti i row - i) = Some v /\
             (best < v)%R /\ Forall (fun u => (u <= v)%R) row).
Proof.
  induction row as [|v rest IH]; intros best besti i Hlt; cbn [argmax_from].
  - left. split; [reflexivity | constructor].
  - destruct (Rlt_dec best v) as [Hbv | Hbv].
    + destruct (IH v i (S i) (Nat.lt_succ_diag_r i)) as [[Hk Hall] | [Hk [u [Hu [Hvu Hall]]]]].
      * right. cbn [length]. split; [lia|].
        exists v. rewrite Hk, Nat.sub_diag. cbn [nth_error].
        split; [reflexivity|]. split; [exact Hbv|].
        constructor; [lra | exact Hall].
      * right. cbn [length]. split; [lia|].
        exists u. split.
        { replace (argmax_from v i (S i) rest - i)
            with (S (argmax_from v i (S i) rest - S i)) by lia.
          exact Hu. }
        split; [lra|]. constructor; [lra | exact Hall].
    + assert (Hlt' : besti < S i) by lia.
      destruct (IH best besti (S i) Hlt') as [[Hk Hall] | [Hk [u [Hu [Hvu Hall]]]]].
      * left. split; [exact Hk|]. constructor; [lra | exact Hall].
      * right. cbn [length]. split; [lia|].
        exists u. split.
        { replace (argmax_from best besti (S i) rest - i)
            with (S (argmax_from best besti (S i) rest - S i)) by lia.
          exact Hu. }
        split; [exact Hvu|]. constructor; [lra | exact Hall].
Qed.

Lemma argmax_row_lt row : row <> [] -> argmax_row row < length row.
Proof.
  destruct row as [|v rest]; [congruence | intros _].
  cbn [argmax_row length].
  destruct (argmax_from_spec rest v 0 1 Nat.lt_0_1) as [[Hk _] | [[_ Hk] _]]; lia.
Qed.

Lemma argmax_row_max row :
  row <> [] ->
  exists top, nth_error row (argmax_row row) = Some top /\
              Forall (fun v => (v <= top)%R) row.
Proof.
  destruct row as [|v rest]; [congruence | intros _].
  cbn [argmax_row].
  destruct (argmax_from_spec rest v 0 1 Nat.lt_0_1)
    as [[Hk Hall] | [Hk [u [Hu [Hvu Hall]]]]].
  - exists v. rewrite Hk. split; [reflexivity|].
    constructor; [lra | exact Hall].
  - exists u. split.
    + replace (argmax_from v 0 1 rest) with (S (argmax_from v 0 1 rest - 1)) by lia.
      exact Hu.
    + constructor; [lra | exact Hall].
Qed.

Lemma Rsum_exp_pos row : row <> [] -> (0 < Rsum (map exp row))%R.
Proof.
  intros Hne.
  assert (Hnn : forall l, (0 <= Rsum (map exp l))%R).
  { induction l as [|v l IH]; cbn [map Rsum fold_right]; [lra|].
    pose proof (exp_pos v). unfold Rsum in IH. lra. }
  destruct row as [|v rest]; [congruence|]. cbn [map Rsum fold_right].
  pose proof (exp_pos v). pose proof (Hnn rest) as Hr. unfold Rsum in Hr. lra.
Qed.

Lemma Rsum_map_div (f : R -> R) c l :
  Rsum (map (fun v => (f v / c)%R) l) = (Rsum (map f l) / c)%R.
Proof.
  induction l as [|v l IH]; cbn [map Rsum fold_right].
  - unfold Rdiv. ring.
  - unfold Rsum in IH. rewrite IH. unfold Rdiv. ring.
Qed.

Lemma softmax_row_sum row : row <> [] -> Rsum (softmax_row row) = 1%R.
Proof.
  intros Hne. unfold softmax_row. rewrite Rsum_map_div.
  pose proof (Rsum_exp_pos row Hne). field. lra.
Qed.

(** ** The three modes *)

(** C1: in PREDICT mode the model function returns an EstimatorSpec that
    holds the predictions mapping and nothing else: "classes" is the
    arg-max over axis 1 of the logits, "probabilities" is their softmax,
    and loss, training operation and metrics are absent.  The call stops at
    the return of line 99 after creating the eleven operations of the
    forward pass, the logits being the ninth; no loss and no training
    operation is among them. *)
Theorem predict_returns_predictions_only features labels g x s B :
  features !! "x" = Some x ->
  shape_of x = Some s -> numel s = (B * 784)%N ->
  cnn_model_fn features labels ModeKeys.PREDICT g =
    (Returned
       (EstimatorSpec.make ModeKeys.PREDICT
          (Some {[ "classes" := ArgMax (logits_of x false) 1;
                   "probabilities" :=
                     Softmax (logits_of x false) "softmax_tensor" ]})
          None None None),
     Graph (nodes g ++ forward_ops x false) (global_step g)
           (lines g ++ lines_forward ++ [99])) /\
  nth_error (forward_ops x false) 8 = Some (logits_of x false) /\
  forallb (fun t => negb (is_loss_op t || is_train_op t))
          (forward_ops x false) = true.
Proof.
  intros Hx Hs Hn. destruct g as [ns gs ls].
  rewrite (run_predict features labels ns gs ls x s B Hx Hs Hn).
  cbn [nodes global_step lines].
  split; [reflexivity|]. split; reflexivity.
Qed.

Lemma predict_returns_predictions_only_witness :
  cnn_model_fn (feats 3) (y_of 3) ModeKeys.PREDICT empty_graph =
    (Returned
       (EstimatorSpec.make ModeKeys.PREDICT
          (Some {[ "classes" := ArgMax (logits_of (x784 3) false) 1;
                   "probabilities" :=
                     Softmax (logits_of (x784 3) false) "softmax_tensor" ]})
          None None None),
     Graph (nodes empty_graph ++ forward_ops (x784 3) false)
           (global_step empty_graph)
           (lines empty_graph ++ lines_forward ++ [99])) /\
  nth_error (forward_ops (x784 3) false) 8 = Some (logits_of (x784 3) false) /\
  forallb (fun t => negb (is_loss_op t || is_train_op t))
          (forward_ops (x784 3) false) = true.
Proof.
  apply (predict_returns_predictions_only (feats 3) (y_of 3) empty_graph
           (x784 3) [3; 784]%N 3%N); reflexivity.
Defined.



(** A mode that is neither PREDICT nor TRAIN never gets a spec back,
    whatever the input. *)
Lemma other_mode_never_returns features labels mode g spec :
  String.eqb mode ModeKeys.PREDICT = false ->
  String.eqb mode ModeKeys.TRAIN = false ->
  fst (cnn_model_fn features labels mode g) <> Returned spec.
Proof.
  intros Hp Ht Hr.
  destruct (cnn_model_fn_metrics_unreached features labels mode g)
    as (_ & _ & Hout).
  rewrite Hr in Hout. destruct Hout as (_ & _ & [-> | ->]); discriminate.
Qed.

(** C3: EVAL mode does not produce an EstimatorSpec with the loss and an
    accuracy metric: on no input does the call return a spec at all, and on
    a batch of three images it raises the unbound-local error of
    [train_op]. *)
Theorem eval_mode_never_returns_a_spec :
  (forall features labels g spec,
     fst (cnn_model_fn features labels ModeKeys.EVAL g) <> Returned spec) /\
  fst (cnn_model_fn (feats 3) (y_of 3) ModeKeys.EVAL empty_graph) =
    Raised (UnboundLocalError "train_op").
Proof.
  split.
  - intros features labels g spec. now apply other_mode_never_returns.
  - vm_compute. reflexivity.
Qed.

(** C9: for a mode that is neither PREDICT nor TRAIN, EVAL in particular,
    the call does not return: reading [train_op] at line 113 raises the
    unbound-local error, that line is the last one executed, and no
    EstimatorSpec is produced. *)
Theorem eval_mode_fails_on_unbound_train_op features labels mode g x s B :
  features !! "x" = Some x ->
  shape_of x = Some s -> numel s = (B * 784)%N ->
  shape_of labels = Some [B] ->
  String.eqb mode ModeKeys.PREDICT = false ->
  String.eqb mode ModeKeys.TRAIN = false ->
  fst (cnn_model_fn features labels mode g) =
    Raised (UnboundLocalError "train_op") /\
  (exists before,
     lines (snd (cnn_model_fn features labels mode g)) = (before ++ [113])%list) /\
  (forall spec, fst (cnn_model_fn features labels mode g) <> Returned spec).
Proof.
  intros Hx Hs Hn Hl Hp Ht. destruct g as [ns gs ls].
  rewrite (run_other features labels mode ns gs ls x s B Hx Hs Hn Hl Hp Ht).
  cbn [fst snd lines]. split; [reflexivity|]. split; [|discriminate].
  exists (ls ++ lines_forward ++ [103; 105; 110])%list.
  now rewrite <- !app_assoc.
Qed.

Lemma eval_mode_fails_on_unbound_train_op_witness :
  fst (cnn_model_fn (feats 3) (y_of 3) ModeKeys.EVAL empty_graph) =
    Raised (UnboundLocalError "train_op") /\
  (exists before,
     lines (snd (cnn_model_fn (feats 3) (y_of 3) ModeKeys.EVAL empty_graph)) =
       (before ++ [113])%list) /\
  (forall spec,
     fst (cnn_model_fn (feats 3) (y_of 3) ModeKeys.EVAL empty_graph) <>
       Returned spec).
Proof.
  apply (eval_mode_fails_on_unbound_train_op (feats 3) (y_of 3) ModeKeys.EVAL
           empty_graph (x784 3) [3; 784]%N 3%N); reflexivity.
Defined.

(** ** The statements after line 113 *)

(** An EVAL call does not return at line 113: it raises there. *)
Lemma eval_call_does_not_return :
  ~ exists spec,
      fst (cnn_model_fn (feats 3) (y_of 3) ModeKeys.EVAL empty_graph) =
        Returned spec.
Proof. intros [spec H]. vm_compute in H. discriminate H. Qed.

(** C4, amended: for every mode and every input the call never executes
    lines 116 and 118 and creates no metric operation; on a well-shaped
    batch every non-PREDICT call stops at line 113, where a TRAIN call
    returns its spec. *)
Theorem metrics_code_unreachable features labels mode g :
  metrics_unreached mode g (cnn_model_fn features labels mode g) /\
  (forall x s B,
     features !! "x" = Some x ->
     shape_of x = Some s -> numel s = (B * 784)%N ->
     shape_of labels = Some [B] ->
     String.eqb mode ModeKeys.PREDICT = false ->
     (exists before,
        lines (snd (cnn_model_fn features labels mode g)) =
          (before ++ [113])%list) /\
     (String.eqb mode ModeKeys.TRAIN = true ->
      exists spec, fst (cnn_model_fn features labels mode g) = Returned spec)).
Proof.
  split; [apply cnn_model_fn_metrics_unreached|].
  intros x s B Hx Hs Hn Hl Hp. destruct g as [ns gs ls].
  destruct (String.eqb mode ModeKeys.TRAIN) eqn:Ht.
  - apply String.eqb_eq in Ht. subst mode.
    rewrite (run_train features labels ns gs ls x s B Hx Hs Hn Hl).
    cbn [fst snd lines]. split; [|eauto].
    exists (ls ++ lines_forward ++ [103; 105; 110; 111; 112])%list.
    now rewrite <- !app_assoc.
  - rewrite (run_other features labels mode ns gs ls x s B Hx Hs Hn Hl Hp Ht).
    cbn [fst snd lines]. split; [|discriminate].
    exists (ls ++ lines_forward ++ [103; 105; 110])%list.
    now rewrite <- !app_assoc.
Qed.

Lemma metrics_code_unreachable_witness :
  metrics_unreached ModeKeys.TRAIN empty_graph
    (cnn_model_fn (feats 3) (y_of 3) ModeKeys.TRAIN empty_graph) /\
  (exists before,
     lines (snd (cnn_model_fn (feats 3) (y_of 3) ModeKeys.TRAIN empty_graph)) =
       (before ++ [113])%list) /\
  (exists spec,
     fst (cnn_model_fn (feats 3) (y_of 3) ModeKeys.TRAIN empty_graph) =
       Returned spec).
Proof.
  destruct (metrics_code_unreachable (feats 3) (y_of 3) ModeKeys.TRAIN
              empty_graph) as [Hdead Hstop].
  split; [exact Hdead|].
  destruct (Hstop (x784 3) [3; 784]%N 3%N eq_refl eq_refl eq_refl eq_refl
              eq_refl) as [Hline Hret].
  split; [exact Hline | exact (Hret eq_refl)].
Defined.

(** ** Shapes of the input layer and of the logits *)

(** C5: the first operation of the call reshapes [features["x"]]; when the
    input holds 784 values per example for [B] examples, whatever its own
    shape, the result has shape [B, 28, 28, 1]: the [-1] of the target is
    computed from the number of input values. *)
Theorem input_layer_shape features labels mode g x s B :
  features !! "x" = Some x ->
  shape_of x = Some s -> numel s = (B * 784)%N ->
  exists rest,
    nodes (snd (cnn_model_fn features labels mode g)) =
      (nodes g ++ Reshape x [-1; 28; 28; 1]%Z :: rest)%list /\
    shape_of (Reshape x [-1; 28; 28; 1]%Z) = Some [B; 28; 28; 1]%N.
Proof.
  intros Hx Hs Hn.
  destruct (cnn_model_fn_creates_forward features labels mode g x s B Hx Hs Hn)
    as [rest Hnodes].
  eexists. split; [rewrite Hnodes; reflexivity|].
  eauto with shapes.
Qed.

Lemma input_layer_shape_witness :
  exists rest,
    nodes (snd (cnn_model_fn (feats 3) (y_of 3) ModeKeys.TRAIN empty_graph)) =
      (nodes empty_graph ++ Reshape (x784 3) [-1; 28; 28; 1]%Z :: rest)%list /\
    shape_of (Reshape (x784 3) [-1; 28; 28; 1]%Z) = Some [3; 28; 28; 1]%N.
Proof.
  apply (input_layer_shape (feats 3) (y_of 3) ModeKeys.TRAIN empty_graph
           (x784 3) [3; 784]%N 3%N); reflexivity.
Defined.

(** C6: the logits, the output of the final dense layer that arg-max and
    softmax read, have shape [B, 10] for every batch size [B] and every
    mode. *)
Theorem logits_shape features labels mode g x s B :
  features !! "x" = Some x ->
  shape_of x = Some s -> numel s = (B * 784)%N ->
  exists before dropout rest,
    nodes (snd (cnn_model_fn features labels mode g)) =
      (nodes g ++ before ++
       [Dense dropout 10 None;
        ArgMax (Dense dropout 10 None) 1;
        Softmax (Dense dropout 10 None) "softmax_tensor"] ++ rest)%list /\
    length before = 8 /\
    shape_of (Dense dropout 10 None) = Some [B; 10]%N.
Proof.
  intros Hx Hs Hn.
  destruct (cnn_model_fn_creates_forward features labels mode g x s B Hx Hs Hn)
    as [rest Hnodes].
  exists (firstn 8 (forward_ops x (String.eqb mode ModeKeys.TRAIN))).
  eexists _, rest. split; [rewrite Hnodes; reflexivity|].
  split; [reflexivity|].
  exact (logits_of_shape x s B _ Hs Hn).
Qed.

Lemma logits_shape_witness :
  exists before dropout rest,
    nodes (snd (cnn_model_fn (feats 3) (y_of 3) ModeKeys.PREDICT empty_graph)) =
      (nodes empty_graph ++ before ++
       [Dense dropout 10 None;
        ArgMax (Dense dropout 10 None) 1;
        Softmax (Dense dropout 10 None) "softmax_tensor"] ++ rest)%list /\
    length before = 8 /\
    shape_of (Dense dropout 10 None) = Some [3; 10]%N.
Proof.
  apply (logits_shape (feats 3) (y_of 3) ModeKeys.PREDICT empty_graph
           (x784 3) [3; 784]%N 3%N); reflexivity.
Defined.

(** ** Values of arg-max, softmax and dropout nodes *)

Lemma eval_argmax oracle keep t rows :
  eval oracle keep t = Some (Floats rows) ->
  eval oracle keep (ArgMax t 1) =
    Some (Ints (map (fun row => Z.of_nat (argmax_row row)) rows)).
Proof. intros H. cbn [eval]. now rewrite H. Qed.

Lemma eval_softmax oracle keep t name rows :
  eval oracle keep t = Some (Floats rows) ->
  eval oracle keep (Softmax t name) = Some (Floats (map softmax_row rows)).
Proof. intros H. cbn [eval]. now rewrite H. Qed.

Lemma eval_dropout_off oracle keep t rate :
  eval oracle keep (Dropout t rate false) = eval oracle keep t.
Proof. reflexivity. Qed.

Lemma eval_dropout_on oracle keep t rate rows :
  eval oracle keep t = Some (Floats rows) ->
  eval oracle keep (Dropout t rate true) =
    Some (Floats (zip_with (dropout_row rate) keep rows)).
Proof. intros H. cbn [eval]. now rewrite H. Qed.

(** ** Predictions *)

(** C7: the predictions mapping has under "classes" the arg-max over axis 1
    of the logits and under "probabilities" their softmax.  Whatever values
    the logits take, ten per example, each class is the position of a
    largest score of its row, a number from 0 to 9, and each row of
    probabilities is the row of exponentials divided by their sum, so it
    sums to 1 (over the reals). *)
Theorem predictions_classes_and_probabilities
    features labels mode g x s B oracle keep rows :
  features !! "x" = Some x ->
  shape_of x = Some s -> numel s = (B * 784)%N ->
  eval oracle keep (logits_of x (String.eqb mode ModeKeys.TRAIN)) =
    Some (Floats rows) ->
  Forall (fun row => length row = 10) rows ->
  exists logits classes probabilities,
    logits = logits_of x (String.eqb mode ModeKeys.TRAIN) /\
    classes = ArgMax logits 1 /\
    probabilities = Softmax logits "softmax_tensor" /\
    (exists before rest,
       nodes (snd (cnn_model_fn features labels mode g)) =
         (nodes g ++ before ++ [logits; classes; probabilities] ++ rest)%list) /\
    (mode = ModeKeys.PREDICT ->
     fst (cnn_model_fn features labels mode g) =
       Returned (EstimatorSpec.make mode
                   (Some {[ "classes" := classes;
                            "probabilities" := probabilities ]})
                   None None None)) /\
    eval oracle keep classes =
      Some (Ints (map (fun row => Z.of_nat (argmax_row row)) rows)) /\
    Forall (fun row =>
              (0 <= Z.of_nat (argmax_row row) <= 9)%Z /\
              exists top, nth_error row (argmax_row row) = Some top /\
                          Forall (fun v => (v <= top)%R) row) rows /\
    eval oracle keep probabilities = Some (Floats (map softmax_row rows)) /\
    Forall (fun row =>
              softmax_row row =
                map (fun v => (exp v / Rsum (map exp row))%R) row /\
              Rsum (softmax_row row) = 1%R) rows.
Proof.
  intros Hx Hs Hn Hval Hlen.
  eexists _, _, _. split; [reflexivity|]. split; [reflexivity|].
  split; [reflexivity|].
  assert (Hne : Forall (fun row : list R => row <> []) rows).
  { eapply List.Forall_impl; [|exact Hlen].
    intros [|v row] H; [discriminate H | congruence]. }
  split.
  { destruct (cnn_model_fn_creates_forward features labels mode g x s B Hx Hs Hn)
      as [rest Hnodes].
    exists (firstn 8 (forward_ops x (String.eqb mode ModeKeys.TRAIN))), rest.
    rewrite Hnodes. reflexivity. }
  split.
  { intros ->. destruct g as [ns gs ls].
    rewrite (run_predict features labels ns gs ls x s B Hx Hs Hn). reflexivity. }
  split.
  { now apply eval_argmax. }
  split.
  { rewrite List.Forall_forall in Hlen, Hne. apply List.Forall_forall. intros row Hin.
    split.
    - pose proof (argmax_row_lt row (Hne row Hin)) as Hlt.
      rewrite (Hlen row Hin) in Hlt. lia.
    - apply argmax_row_max. now apply Hne. }
  split.
  { now apply eval_softmax. }
  rewrite List.Forall_forall in Hne. apply List.Forall_forall. intros row Hin.
  split; [reflexivity|]. apply softmax_row_sum. now apply Hne.
Qed.

Lemma predictions_classes_and_probabilities_witness :
  exists logits classes probabilities,
    logits = logits_of (x784 3) (String.eqb ModeKeys.PREDICT ModeKeys.TRAIN) /\
    classes = ArgMax logits 1 /\
    probabilities = Softmax logits "softmax_tensor" /\
    (exists before rest,
       nodes (snd (cnn_model_fn (feats 3) (y_of 3) ModeKeys.PREDICT empty_graph)) =
         (nodes empty_graph ++ before ++
          [logits; classes; probabilities] ++ rest)%list) /\
    (ModeKeys.PREDICT = ModeKeys.PREDICT ->
     fst (cnn_model_fn (feats 3) (y_of 3) ModeKeys.PREDICT empty_graph) =
       Returned (EstimatorSpec.make ModeKeys.PREDICT
                   (Some {[ "classes" := classes;
                            "probabilities" := probabilities ]})
                   None None None)) /\
    eval sample_oracle [] classes =
      Some (Ints (map (fun row => Z.of_nat (argmax_row row)) sample_logits)) /\
    Forall (fun row =>
              (0 <= Z.of_nat (argmax_row row) <= 9)%Z /\
              exists top, nth_error row (argmax_row row) = Some top /\
                          Forall (fun v => (v <= top)%R) row) sample_logits /\
    eval sample_oracle [] probabilities =
      Some (Floats (map softmax_row sample_logits)) /\
    Forall (fun row =>
              softmax_row row =
                map (fun v => (exp v / Rsum (map exp row))%R) row /\
              Rsum (softmax_row row) = 1%R) sample_logits.
Proof.
  apply (predictions_classes_and_probabilities (feats 3) (y_of 3)
           ModeKeys.PREDICT empty_graph (x784 3) [3; 784]%N 3%N
           sample_oracle [] sample_logits);
    try reflexivity.
  repeat constructor.
Defined.

(** ** Dropout *)

(** C10: the dropout layer sits between the dense layer and the logits
    layer, with rate 0.4 and training flag [mode == TRAIN].  The flag is
    true exactly in TRAIN mode; in every other mode, PREDICT and EVAL among
    them, the value of the dropout node is the value of the dense layer,
    unchanged; in TRAIN mode it is the dense value with the entries not
    kept set to zero and the others scaled by 1 / (1 - 0.4). *)
Theorem dropout_active_only_in_train
    features labels mode g x s B oracle keep :
  features !! "x" = Some x ->
  shape_of x = Some s -> numel s = (B * 784)%N ->
  exists before pool2_flat dense dropout rest,
    dense = Dense pool2_flat 1024 (Some relu) /\
    dropout = Dropout dense 0.4%Q (String.eqb mode ModeKeys.TRAIN) /\
    nodes (snd (cnn_model_fn features labels mode g)) =
      (nodes g ++ before ++ [dense; dropout; Dense dropout 10 None] ++ rest)%list /\
    (String.eqb mode ModeKeys.TRAIN = true <-> mode = ModeKeys.TRAIN) /\
    (mode <> ModeKeys.TRAIN ->
     eval oracle keep dropout = eval oracle keep dense) /\
    (mode = ModeKeys.TRAIN ->
     forall rows,
       eval oracle keep dense = Some (Floats rows) ->
       eval oracle keep dropout =
         Some (Floats (zip_with (dropout_row 0.4%Q) keep rows))).
Proof.
  intros Hx Hs Hn.
  destruct (cnn_model_fn_creates_forward features labels mode g x s B Hx Hs Hn)
    as [rest Hnodes].
  exists (firstn 6 (forward_ops x (String.eqb mode ModeKeys.TRAIN))).
  eexists _, _, _, (_ :: _ :: rest).
  split; [reflexivity|]. split; [reflexivity|].
  split; [rewrite Hnodes; reflexivity|].
  split; [apply String.eqb_eq|].
  split.
  - intros Hne. apply String.eqb_neq in Hne. rewrite Hne.
    apply eval_dropout_off.
  - intros -> rows Hrows. now apply eval_dropout_on.
Qed.

Lemma dropout_active_only_in_train_witness :
  exists before pool2_flat dense dropout rest,
    dense = Dense pool2_flat 1024 (Some relu) /\
    dropout = Dropout dense 0.4%Q (String.eqb ModeKeys.EVAL ModeKeys.TRAIN) /\
    nodes (snd (cnn_model_fn (feats 3) (y_of 3) ModeKeys.EVAL empty_graph)) =
      (nodes empty_graph ++ before ++
       [dense; dropout; Dense dropout 10 None] ++ rest)%list /\
    (String.eqb ModeKeys.EVAL ModeKeys.TRAIN = true <->
     ModeKeys.EVAL = ModeKeys.TRAIN) /\
    (ModeKeys.EVAL <> ModeKeys.TRAIN ->
     eval sample_oracle [] dropout = eval sample_oracle [] dense) /\
    (ModeKeys.EVAL = ModeKeys.TRAIN ->
     forall rows,
       eval sample_oracle [] dense = Some (Floats rows) ->
       eval sample_oracle [] dropout =
         Some (Floats (zip_with (dropout_row 0.4%Q) [] rows))).
Proof.
  apply (dropout_active_only_in_train (feats 3) (y_of 3) ModeKeys.EVAL
           empty_graph (x784 3) [3; 784]%N 3%N sample_oracle []);
    reflexivity.
Defined.

(** ** The driver *)

Lemma call_model_fn_train {R} dir a_images a_labels batch epochs shuffle
    (w : world) :
  well_shaped a_images a_labels ->
  @call_model_fn R {| model_fn := cnn_model_fn; model_dir := dir |}
    (inputs.numpy_input_fn {[ "x" := a_images ]} a_labels batch epochs shuffle)
    ModeKeys.TRAIN w =
  (Normal
     (EstimatorSpec.make ModeKeys.TRAIN None
        (Some (loss_of (batch_of batch a_labels)
                 (logits_of (batch_of batch a_images) true)))
        (Some (Minimize 0.001%Q
                 (loss_of (batch_of batch a_labels)
                    (logits_of (batch_of batch a_images) true))
                 (Some GlobalStep)))
        None,
      Graph (forward_ops (batch_of batch a_images) true ++
             loss_ops (batch_of batch a_labels)
               (logits_of (batch_of batch a_images) true) ++
             [Minimize 0.001%Q
                (loss_of (batch_of batch a_labels)
                   (logits_of (batch_of batch a_images) true))
                (Some GlobalStep)])
            (Some GlobalStep)
            (lines_forward ++ [103; 105; 110; 111; 112; 113])), w).
Proof.
  intros [n [Hi Hl]].
  unfold call_model_fn. cbn [model_fn x y batch_size inputs.numpy_input_fn].
  rewrite map_fmap_singleton.
  erewrite (run_train _ _ [] (Some GlobalStep) [] (batch_of batch a_images) _ batch).
  - reflexivity.
  - apply lookup_singleton_eq.
  - unfold batch_of. cbn [shape_of]. rewrite Hi. reflexivity.
  - cbn [numel fold_right tail]. lia.
  - unfold batch_of. cbn [shape_of]. rewrite Hl. reflexivity.
Qed.

Lemma call_model_fn_eval {R} dir a_images a_labels batch epochs shuffle
    (w : world) :
  well_shaped a_images a_labels ->
  @call_model_fn R {| model_fn := cnn_model_fn; model_dir := dir |}
    (inputs.numpy_input_fn {[ "x" := a_images ]} a_labels batch epochs shuffle)
    ModeKeys.EVAL w =
  (Raised (UnboundLocalError "train_op"), w).
Proof.
  intros [n [Hi Hl]].
  unfold call_model_fn. cbn [model_fn x y batch_size inputs.numpy_input_fn].
  rewrite map_fmap_singleton.
  erewrite (run_other _ _ _ [] (Some GlobalStep) [] (batch_of batch a_images) _ batch).
  - reflexivity.
  - apply lookup_singleton_eq.
  - unfold batch_of. cbn [shape_of]. rewrite Hi. reflexivity.
  - cbn [numel fold_right tail]. lia.
  - unfold batch_of. cbn [shape_of]. rewrite Hl. reflexivity.
  - reflexivity.
  - reflexivity.
Qed.

Ltac whd_main :=
  lazymatch goal with
  | |- ?l = ?r =>
      let l' := eval lazy head beta iota zeta
                  delta -[call_model_fn map_to_list has_tensor] in l in
      change (l' = r)
  end.

Lemma load_mnist {R} (w : world) d :
  datasets w !! "mnist" = Some d ->
  @tf.contrib.learn.datasets.load_dataset R "mnist" w = (Normal d, w).
Proof.
  intros Hd. unfold tf.contrib.learn.datasets.load_dataset.
  change (match datasets w !! "mnist" with
          | Some d0 => mret d0
          | None => raise (IOError "mnist")
          end w = (@Normal R _ d, w)).
  now rewrite Hd.
Qed.

Lemma has_softmax_tensor x training rest gs ls :
  has_tensor (Graph (forward_ops x training ++ rest) gs ls) "softmax_tensor"
  = true.
Proof.
  unfold has_tensor. cbn [nodes]. rewrite existsb_app.
  apply orb_true_iff. left. vm_compute. reflexivity.
Qed.

(** C8: the driver trains with batches of 100, shuffled, for 20000 steps,
    with a hook that logs "softmax_tensor" every 50 iterations, on a model
    whose training step has learning rate 0.001 and whose dropout has rate
    0.4; the evaluation call that follows raises the unbound-local error of
    line 113, so no evaluation is recorded and nothing is printed. *)
Theorem main_stops_at_evaluate unused_argv w d :
  datasets w !! "mnist" = Some d ->
  well_shaped (images (train d)) (labels (train d)) ->
  well_shaped (images (test d)) (labels (test d)) ->
  main unused_argv w =
  (Raised (UnboundLocalError "train_op"),
   World (datasets w)
     (events w ++
      [Trained "/tmp/mnist_convnet_model"
         {| x := {[ "x" := images (train d) ]};
            y := np.asarray (labels (train d)) int32;
            batch_size := 100;
            num_epochs := None;
            shuffle := true |}
         20000
         [{| tensors := {[ "probabilities" := "softmax_tensor" ]};
             every_n_iter := 50 |}]
         (EstimatorSpec.make ModeKeys.TRAIN None
            (Some (loss_of (batch_of 100 (np.asarray (labels (train d)) int32))
                     (logits_of (batch_of 100 (images (train d))) true)))
            (Some (Minimize 0.001%Q
                     (loss_of (batch_of 100 (np.asarray (labels (train d)) int32))
                        (logits_of (batch_of 100 (images (train d))) true))
                     (Some GlobalStep)))
            None)])).
Proof.
  intros Hd Htrain Htest.
  unfold main.
  change (mbind ?k (tf.contrib.learn.datasets.load_dataset "mnist") w)
    with (bind (tf.contrib.learn.datasets.load_dataset "mnist") k w).
  unfold bind at 1. rewrite (load_mnist w d Hd).
  whd_main.
  rewrite call_model_fn_train by exact Htrain.
  whd_main. cbn [tensors tf.train.LoggingTensorHook map concat].
  rewrite map_to_list_singleton. cbn [fmap list_fmap snd app List.filter].
  rewrite has_softmax_tensor.
  whd_main.
  rewrite call_model_fn_eval by exact Htest. whd_main.
  reflexivity.
Qed.

Lemma main_stops_at_evaluate_witness :
  main [] mnist_world =
  (Raised (UnboundLocalError "train_op"),
   World (datasets mnist_world)
     (events mnist_world ++
      [Trained "/tmp/mnist_convnet_model"
         {| x := {[ "x" := images (train mnist_data) ]};
            y := np.asarray (labels (train mnist_data)) int32;
            batch_size := 100;
            num_epochs := None;
            shuffle := true |}
         20000
         [{| tensors := {[ "probabilities" := "softmax_tensor" ]};
             every_n_iter := 50 |}]
         (EstimatorSpec.make ModeKeys.TRAIN None
            (Some (loss_of
                     (batch_of 100 (np.asarray (labels (train mnist_data)) int32))
                     (logits_of (batch_of 100 (images (train mnist_data))) true)))
            (Some (Minimize 0.001%Q
                     (loss_of
                        (batch_of 100
                           (np.asarray (labels (train mnist_data)) int32))
                        (logits_of (batch_of 100 (images (train mnist_data)))
                           true))
                     (Some GlobalStep)))
            None)])).
Proof.
  apply (main_stops_at_evaluate [] mnist_world mnist_data);
    [reflexivity | exists 55000%N | exists 10000%N]; split; reflexivity.
Defined.

(** * Further properties of the model function *)

Ltac whd_both :=
  lazymatch goal with
  | |- ?l = ?r =>
      let l' := eval lazy head beta iota zeta delta -[shape_of] in l in
      let r' := eval lazy head beta iota zeta delta -[shape_of] in r in
      change (l' = r'); cbn [nodes global_step lines]
  end.

(** X1: without an "x" entry in [features] the call raises [KeyError] at
    line 61, in every mode, and creates no operation. *)
Theorem missing_x_raises_key_error features labels mode g :
  features !! "x" = None ->
  cnn_model_fn features labels mode g =
  (Raised (KeyError "x"), Graph (nodes g) (global_step g) (lines g ++ [61])).
Proof.
  intros Hx. destruct g as [ns gs ls].
  unfold cnn_model_fn, getitem. rewrite Hx. whd_lhs. reflexivity.
Qed.

Lemma missing_x_raises_key_error_witness :
  cnn_model_fn ∅ (y_of 3) ModeKeys.TRAIN empty_graph =
  (Raised (KeyError "x"),
   Graph (nodes empty_graph) (global_step empty_graph)
         (lines empty_graph ++ [61])).
Proof.
  apply (missing_x_raises_key_error ∅ (y_of 3) ModeKeys.TRAIN empty_graph).
  reflexivity.
Defined.

(** X2: in PREDICT mode the labels are never looked at: two calls that
    differ in the labels only give the same outcome and the same graph,
    whatever the input. *)
Theorem predict_ignores_labels features labels1 labels2 g :
  cnn_model_fn features labels1 ModeKeys.PREDICT g =
  cnn_model_fn features labels2 ModeKeys.PREDICT g.
Proof.
  destruct g as [ns gs ls]. unfold cnn_model_fn, getitem.
  destruct (features !! "x") as [x|].
  - whd_both; repeat (split_shape; whd_both); reflexivity.
  - whd_both. reflexivity.
Qed.

Ltac close_guarded :=
  unfold training_guarded; cbn [fst snd nodes global_step];
  rewrite <- ?app_assoc;
  first [ eexists; split;
          [reflexivity
          | intros Hmode; first [reflexivity | discriminate Hmode]]
        | exists []; split; [now rewrite app_nil_r | intros; reflexivity] ].

Lemma cnn_model_fn_training_guarded features labels mode g :
  training_guarded mode g (cnn_model_fn features labels mode g).
Proof.
  destruct g as [ns gs ls].
  unfold cnn_model_fn, getitem.
  destruct (features !! "x") as [x|].
  2:{ whd_run. close_guarded. }
  destruct (String.eqb_spec mode ModeKeys.PREDICT) as [-> | Hp].
  - whd_run; repeat (split_shape; whd_run); close_guarded.
  - destruct (String.eqb_spec mode ModeKeys.TRAIN) as [-> | Ht].
    + whd_run; repeat (split_shape; whd_run); close_guarded.
    + whd_run; repeat (split_shape; whd_run); close_guarded.
Qed.

(** X4: outside TRAIN mode no training operation is created, whatever the
    input: the optimizer of lines 111-112 is reached in TRAIN mode only. *)
Theorem no_training_op_outside_train features labels mode g :
  String.eqb mode ModeKeys.TRAIN = false ->
  exists created,
    nodes (snd (cnn_model_fn features labels mode g)) =
      (nodes g ++ created)%list /\
    forallb (fun t => negb (is_train_op t)) created = true.
Proof.
  intros Ht.
  destruct (cnn_model_fn_training_guarded features labels mode g)
    as (cr & Hnodes & Hcr).
  exists cr. split; [exact Hnodes | exact (Hcr Ht)].
Qed.

Lemma no_training_op_outside_train_witness :
  exists created,
    nodes (snd (cnn_model_fn (feats 3) (y_of 3) ModeKeys.EVAL empty_graph)) =
      (nodes empty_graph ++ created)%list /\
    forallb (fun t => negb (is_train_op t)) created = true.
Proof.
  apply (no_training_op_outside_train (feats 3) (y_of 3) ModeKeys.EVAL
           empty_graph).
  reflexivity.
Defined.

(** X6: the layers have the shapes the comments of the notebook give
    them: conv1 is [B, 28, 28, 32] (line 67), the two poolings halve width
    and height to 14 and to 7, pool2_flat is [B, 3136] (line 80), the dense
    layer and dropout are [B, 1024], the logits [B, 10] (line 88), the
    classes [B] and the probabilities [B, 10]. *)
Theorem layer_shapes_as_documented features labels mode g x s B :
  features !! "x" = Some x ->
  shape_of x = Some s -> numel s = (B * 784)%N ->
  exists input_layer conv1 pool1 conv2 pool2 pool2_flat dense dropout logits
         classes probabilities rest,
    nodes (snd (cnn_model_fn features labels mode g)) =
      (nodes g ++ [input_layer; conv1; pool1; conv2; pool2; pool2_flat; dense;
                   dropout; logits; classes; probabilities] ++ rest)%list /\
    shape_of input_layer = Some [B; 28; 28; 1]%N /\
    shape_of conv1 = Some [B; 28; 28; 32]%N /\
    shape_of pool1 = Some [B; 14; 14; 32]%N /\
    shape_of conv2 = Some [B; 14; 14; 64]%N /\
    shape_of pool2 = Some [B; 7; 7; 64]%N /\
    shape_of pool2_flat = Some [B; 3136]%N /\
    shape_of dense = Some [B; 1024]%N /\
    shape_of dropout = Some [B; 1024]%N /\
    shape_of logits = Some [B; 10]%N /\
    shape_of classes = Some [B] /\
    shape_of probabilities = Some [B; 10]%N.
Proof.
  intros Hx Hs Hn.
  destruct (cnn_model_fn_creates_forward features labels mode g x s B Hx Hs Hn)
    as [rest Hnodes].
  unfold forward_ops in Hnodes.
  do 11 eexists. exists rest.
  split; [exact Hnodes|].
  repeat split; eauto 15 with shapes.
Qed.

Lemma layer_shapes_as_documented_witness :
  exists input_layer conv1 pool1 conv2 pool2 pool2_flat dense dropout logits
         classes probabilities rest,
    nodes (snd (cnn_model_fn (feats 3) (y_of 3) ModeKeys.EVAL empty_graph)) =
      (nodes empty_graph ++
       [input_layer; conv1; pool1; conv2; pool2; pool2_flat; dense;
        dropout; logits; classes; probabilities] ++ rest)%list /\
    shape_of input_layer = Some [3; 28; 28; 1]%N /\
    shape_of conv1 = Some [3; 28; 28; 32]%N /\
    shape_of pool1 = Some [3; 14; 14; 32]%N /\
    shape_of conv2 = Some [3; 14; 14; 64]%N /\
    shape_of pool2 = Some [3; 7; 7; 64]%N /\
    shape_of pool2_flat = Some [3; 3136]%N /\
    shape_of dense = Some [3; 1024]%N /\
    shape_of dropout = Some [3; 1024]%N /\
    shape_of logits = Some [3; 10]%N /\
    shape_of classes = Some [3%N] /\
    shape_of probabilities = Some [3; 10]%N.
Proof.
  apply (layer_shapes_as_documented (feats 3) (y_of 3) ModeKeys.EVAL
           empty_graph (x784 3) [3; 784]%N 3%N); reflexivity.
Defined.

(** X7: two calls in modes other than TRAIN, PREDICT and EVAL for one,
    build the same eleven operations from the same input, whatever their
    labels: the network that is evaluated is the one that predicts. *)
Theorem same_network_outside_train
    features labels1 labels2 mode1 mode2 g x s B :
  features !! "x" = Some x ->
  shape_of x = Some s -> numel s = (B * 784)%N ->
  String.eqb mode1 ModeKeys.TRAIN = false ->
  String.eqb mode2 ModeKeys.TRAIN = false ->
  exists network logits rest1 rest2,
    length network = 11 /\
    nth_error network 8 = Some logits /\
    nth_error network 9 = Some (ArgMax logits 1) /\
    nth_error network 10 = Some (Softmax logits "softmax_tensor") /\
    nodes (snd (cnn_model_fn features labels1 mode1 g)) =
      (nodes g ++ network ++ rest1)%list /\
    nodes (snd (cnn_model_fn features labels2 mode2 g)) =
      (nodes g ++ network ++ rest2)%list.
Proof.
  intros Hx Hs Hn Ht1 Ht2.
  destruct (cnn_model_fn_creates_forward features labels1 mode1 g x s B Hx Hs Hn)
    as [rest1 Hn1].
  destruct (cnn_model_fn_creates_forward features labels2 mode2 g x s B Hx Hs Hn)
    as [rest2 Hn2].
  rewrite Ht1 in Hn1. rewrite Ht2 in Hn2.
  exists (forward_ops x false), (logits_of x false), rest1, rest2.
  repeat split; [exact Hn1 | exact Hn2].
Qed.

Lemma same_network_outside_train_witness :
  exists network logits rest1 rest2,
    length network = 11 /\
    nth_error network 8 = Some logits /\
    nth_error network 9 = Some (ArgMax logits 1) /\
    nth_error network 10 = Some (Softmax logits "softmax_tensor") /\
    nodes (snd (cnn_model_fn (feats 3) (y_of 3) ModeKeys.PREDICT empty_graph)) =
      (nodes empty_graph ++ network ++ rest1)%list /\
    nodes (snd (cnn_model_fn (feats 3) (y_of 3) ModeKeys.EVAL empty_graph)) =
      (nodes empty_graph ++ network ++ rest2)%list.
Proof.
  apply (same_network_outside_train (feats 3) (y_of 3) (y_of 3)
           ModeKeys.PREDICT ModeKeys.EVAL empty_graph (x784 3) [3; 784]%N 3%N);
    reflexivity.
Defined.

(** X8: the loss of lines 103-106 is built in every mode except PREDICT,
    EVAL included, exactly once, as a scalar, from the same logits that
    softmax reads. *)
Theorem loss_built_in_every_mode_but_predict features labels mode g x s B :
  features !! "x" = Some x ->
  shape_of x = Some s -> numel s = (B * 784)%N ->
  shape_of labels = Some [B] ->
  String.eqb mode ModeKeys.PREDICT = false ->
  exists dropout created,
    nodes (snd (cnn_model_fn features labels mode g)) =
      (nodes g ++ created)%list /\
    In (Softmax (Dense dropout 10 None) "softmax_tensor") created /\
    List.filter is_loss_op created =
      [SoftmaxCrossEntropy (OneHot (Cast labels int32) 10)
         (Dense dropout 10 None)] /\
    shape_of (SoftmaxCrossEntropy (OneHot (Cast labels int32) 10)
                (Dense dropout 10 None)) = Some [].
Proof.
  intros Hx Hs Hn Hl Hp. destruct g as [ns gs ls].
  destruct (String.eqb mode ModeKeys.TRAIN) eqn:Ht.
  - apply String.eqb_eq in Ht. subst mode.
    rewrite (run_train features labels ns gs ls x s B Hx Hs Hn Hl).
    cbn [snd nodes]. eexists _, _. split; [reflexivity|].
    split; [cbn; tauto|]. split; [reflexivity|].
    apply (loss_of_shape labels _ B Hl). exact (logits_of_shape x s B true Hs Hn).
  - rewrite (run_other features labels mode ns gs ls x s B Hx Hs Hn Hl Hp Ht).
    cbn [snd nodes]. eexists _, _. split; [reflexivity|].
    split; [cbn; tauto|]. split; [reflexivity|].
    apply (loss_of_shape labels _ B Hl). exact (logits_of_shape x s B false Hs Hn).
Qed.

Lemma loss_built_in_every_mode_but_predict_witness :
  exists dropout created,
    nodes (snd (cnn_model_fn (feats 3) (y_of 3) ModeKeys.EVAL empty_graph)) =
      (nodes empty_graph ++ created)%list /\
    In (Softmax (Dense dropout 10 None) "softmax_tensor") created /\
    List.filter is_loss_op created =
      [SoftmaxCrossEntropy (OneHot (Cast (y_of 3) int32) 10)
         (Dense dropout 10 None)] /\
    shape_of (SoftmaxCrossEntropy (OneHot (Cast (y_of 3) int32) 10)
                (Dense dropout 10 None)) = Some [].
Proof.
  apply (loss_built_in_every_mode_but_predict (feats 3) (y_of 3) ModeKeys.EVAL
           empty_graph (x784 3) [3; 784]%N 3%N); reflexivity.
Defined.

Lemma reshape_28_indivisible s :
  (numel s mod 784)%N <> 0%N ->
  reshape_shape s [-1; 28; 28; 1]%Z = None.
Proof.
  intros Hmod. unfold reshape_shape.
  change (target_known [-1; 28; 28; 1]%Z) with (Some (784%N, 1)).
  cbn [N.eqb]. apply N.eqb_neq in Hmod. now rewrite Hmod.
Qed.

(** X9: when the number of input values is not a multiple of 784 the
    reshape of line 61 fails: the call raises [ValueError] in every mode,
    and line 61 is the only statement it executes. *)
Theorem ragged_input_raises_value_error features labels mode g x s :
  features !! "x" = Some x ->
  shape_of x = Some s -> (numel s mod 784)%N <> 0%N ->
  fst (cnn_model_fn features labels mode g) =
    Raised (ValueError "incompatible shapes") /\
  lines (snd (cnn_model_fn features labels mode g)) = (lines g ++ [61])%list.
Proof.
  intros Hx Hs Hmod. destruct g as [ns gs ls].
  assert (Hrun : cnn_model_fn features labels mode (Graph ns gs ls) =
                 (Raised (ValueError "incompatible shapes"),
                  Graph ns gs (ls ++ [61]))).
  { unfold cnn_model_fn, getitem. rewrite Hx. whd_lhs.
    assert (Hnone : shape_of (Reshape x [-1; 28; 28; 1]%Z) = None).
    { cbn [shape_of]. rewrite Hs. now apply reshape_28_indivisible. }
    rewrite Hnone. whd_lhs. reflexivity. }
  rewrite Hrun. split; reflexivity.
Qed.

Lemma ragged_input_raises_value_error_witness :
  fst (cnn_model_fn {[ "x" := Placeholder "x" float32 [3; 783]%N ]} (y_of 3)
         ModeKeys.PREDICT empty_graph) =
    Raised (ValueError "incompatible shapes") /\
  lines (snd (cnn_model_fn {[ "x" := Placeholder "x" float32 [3; 783]%N ]}
                (y_of 3) ModeKeys.PREDICT empty_graph)) =
    (lines empty_graph ++ [61])%list.
Proof.
  apply (ragged_input_raises_value_error
           {[ "x" := Placeholder "x" float32 [3; 783]%N ]} (y_of 3)
           ModeKeys.PREDICT empty_graph
           (Placeholder "x" float32 [3; 783]%N) [3; 783]%N);
    [reflexivity | reflexivity | vm_compute; discriminate].
Defined.

Lemma shape_cross_entropy_mismatch a b sa sb :
  shape_of a = Some sa -> shape_of b = Some sb -> sa <> sb ->
  shape_of (SoftmaxCrossEntropy a b) = None.
Proof.
  intros Ha Hb Hne. cbn [shape_of]. rewrite Ha, Hb.
  unfold shape_eqb. now rewrite bool_decide_eq_false_2.
Qed.

Lemma shape_one_hot_any t sh depth :
  shape_of t = Some sh -> shape_of (OneHot t depth) = Some (sh ++ [depth])%list.
Proof. intros Hs. cbn [shape_of]. now rewrite Hs. Qed.

(** X10: labels whose shape is not [B] for a batch of [B] images make
    every call except a PREDICT one raise [ValueError] at the loss of line
    105, the last statement executed, after the operations of the forward
    pass have been added to the graph. *)
Theorem mismatched_labels_raise_at_the_loss features labels mode g x s B sl :
  features !! "x" = Some x ->
  shape_of x = Some s -> numel s = (B * 784)%N ->
  shape_of labels = Some sl -> sl <> [B] ->
  String.eqb mode ModeKeys.PREDICT = false ->
  fst (cnn_model_fn features labels mode g) =
    Raised (ValueError "incompatible shapes") /\
  lines (snd (cnn_model_fn features labels mode g)) =
    (lines g ++ lines_forward ++ [103; 105])%list /\
  exists rest,
    nodes (snd (cnn_model_fn features labels mode g)) =
      (nodes g ++ forward_ops x (String.eqb mode ModeKeys.TRAIN) ++ rest)%list.
Proof.
  intros Hx Hs Hn Hl Hne Hp. destruct g as [ns gs ls].
  assert (Hrun : cnn_model_fn features labels mode (Graph ns gs ls) =
                 (Raised (ValueError "incompatible shapes"),
                  Graph (ns ++ forward_ops x (String.eqb mode ModeKeys.TRAIN) ++
                         [Cast labels int32; OneHot (Cast labels int32) 10]) gs
                        (ls ++ lines_forward ++ [103; 105]))).
  { unfold cnn_model_fn, getitem. rewrite Hx, !Hp.
    whd_lhs. do 11 (shape_step; whd_lhs).
    rewrite (shape_cast labels sl int32 Hl). whd_lhs.
    rewrite (shape_one_hot_any _ sl 10 (shape_cast labels sl int32 Hl)). whd_lhs.
    erewrite (shape_cross_entropy_mismatch _ _ (sl ++ [10%N])%list [B; 10%N]).
    - whd_lhs. rewrite <- ?app_assoc. reflexivity.
    - apply shape_one_hot_any. exact Hl.
    - exact (logits_of_shape x s B _ Hs Hn).
    - intros Heq. apply Hne.
      destruct sl as [|d [|d' sl']]; cbn in Heq; try discriminate Heq.
      + now inversion Heq.
      + inversion Heq as [[Hd Hd' Hnil]]. destruct sl'; discriminate Hnil. }
  rewrite Hrun. cbn [fst snd nodes lines].
  split; [reflexivity|]. split; [reflexivity|]. eexists. reflexivity.
Qed.

Lemma mismatched_labels_raise_at_the_loss_witness :
  fst (cnn_model_fn (feats 3) (y_of 4) ModeKeys.EVAL empty_graph) =
    Raised (ValueError "incompatible shapes") /\
  lines (snd (cnn_model_fn (feats 3) (y_of 4) ModeKeys.EVAL empty_graph)) =
    (lines empty_graph ++ lines_forward ++ [103; 105])%list /\
  exists rest,
    nodes (snd (cnn_model_fn (feats 3) (y_of 4) ModeKeys.EVAL empty_graph)) =
      (nodes empty_graph ++
       forward_ops (x784 3) (String.eqb ModeKeys.EVAL ModeKeys.TRAIN) ++
       rest)%list.
Proof.
  apply (mismatched_labels_raise_at_the_loss (feats 3) (y_of 4) ModeKeys.EVAL
           empty_graph (x784 3) [3; 784]%N 3%N [4%N]);
    try reflexivity.
  discriminate.
Defined.

(** ** Softmax rows *)

Lemma exp_le_Rsum_exp row v : In v row -> (exp v <= Rsum (map exp row))%R.
Proof.
  assert (Hnn : forall l, (0 <= Rsum (map exp l))%R).
  { induction l as [|u l IH]; cbn [map Rsum fold_right]; [lra|].
    pose proof (exp_pos u). unfold Rsum in IH. lra. }
  induction row as [|u row IH]; intros Hin; [destruct Hin|].
  cbn [map Rsum fold_right]. destruct Hin as [-> | Hin].
  - pose proof (Hnn row) as Hr. unfold Rsum in Hr. lra.
  - pose proof (exp_pos u). specialize (IH Hin). unfold Rsum in IH. lra.
Qed.

Lemma softmax_row_entry row q :
  In q (softmax_row row) -> (0 < q <= 1)%R.
Proof.
  unfold softmax_row. intros Hin. apply in_map_iff in Hin.
  destruct Hin as [v [<- Hv]].
  pose proof (exp_le_Rsum_exp row v Hv) as Hle.
  pose proof (exp_pos v) as Hpos.
  assert (HS : (0 < Rsum (map exp row))%R) by lra.
  split.
  - now apply Rdiv_lt_0_compat.
  - apply (Rmult_le_reg_r (Rsum (map exp row))); [exact HS|].
    unfold Rdiv. rewrite Rmult_assoc, Rinv_l by lra. lra.
Qed.

Lemma softmax_row_top row :
  row <> [] ->
  exists p, nth_error (softmax_row row) (argmax_row row) = Some p /\
            (p <= 1)%R /\
            Forall (fun q => (0 <= q <= p)%R) (softmax_row row).
Proof.
  intros Hne. destruct (argmax_row_max row Hne) as [top [Htop Hall]].
  pose proof (Rsum_exp_pos row Hne) as HS.
  assert (Hnth : nth_error (softmax_row row) (argmax_row row) =
                 Some (exp top / Rsum (map exp row))%R).
  { unfold softmax_row. rewrite nth_error_map, Htop. reflexivity. }
  exists (exp top / Rsum (map exp row))%R. split; [exact Hnth|]. split.
  - apply nth_error_In in Hnth.
    pose proof (softmax_row_entry row _ Hnth). tauto.
  - apply List.Forall_forall. intros q Hq.
    pose proof (softmax_row_entry row q Hq) as Hrange.
    split; [lra|].
    unfold softmax_row in Hq. apply in_map_iff in Hq.
    destruct Hq as [v [<- Hv]].
    rewrite List.Forall_forall in Hall. specialize (Hall v Hv).
    apply Rmult_le_compat_r.
    + left. now apply Rinv_0_lt_compat.
    + destruct Hall as [Hlt | ->];
        [left; now apply exp_increasing | right; reflexivity].
Qed.

Lemma Forall2_map_both {A B C} (P : B -> C -> Prop) (f : A -> B) (h : A -> C) l :
  Forall (fun a => P (f a) (h a)) l -> Forall2 P (map f l) (map h l).
Proof. induction 1; cbn; constructor; auto. Qed.

(** X11: the two entries of the predictions agree: for every example the
    probability at the predicted class is a largest one of its row, and
    every probability lies between 0 and 1.  The mapping is read back with
    lookups on the keys "classes" and "probabilities". *)
Theorem predicted_class_has_largest_probability
    features labels g x s B oracle keep rows :
  features !! "x" = Some x ->
  shape_of x = Some s -> numel s = (B * 784)%N ->
  eval oracle keep (logits_of x false) = Some (Floats rows) ->
  Forall (fun row => row <> []) rows ->
  exists spec preds classes probabilities cs ps,
    fst (cnn_model_fn features labels ModeKeys.PREDICT g) = Returned spec /\
    EstimatorSpec.predictions spec = Some preds /\
    preds !! "classes" = Some classes /\
    preds !! "probabilities" = Some probabilities /\
    eval oracle keep classes = Some (Ints cs) /\
    eval oracle keep probabilities = Some (Floats ps) /\
    Forall2 (fun c prow =>
               exists p, nth_error prow (Z.to_nat c) = Some p /\
                         (p <= 1)%R /\
                         Forall (fun q => (0 <= q <= p)%R) prow)
            cs ps.
Proof.
  intros Hx Hs Hn Hval Hne. destruct g as [ns gs ls].
  rewrite (run_predict features labels ns gs ls x s B Hx Hs Hn).
  eexists _, _, _, _, _, _. cbn [fst EstimatorSpec.predictions].
  split; [reflexivity|]. split; [reflexivity|].
  split; [apply lookup_insert_eq|].
  split; [rewrite lookup_insert_ne by discriminate; apply lookup_singleton_eq|].
  split; [exact (eval_argmax oracle keep _ rows Hval)|].
  split; [exact (eval_softmax oracle keep _ _ rows Hval)|].
  apply Forall2_map_both. eapply List.Forall_impl; [|exact Hne].
  intros row Hrow. rewrite Nat2Z.id. now apply softmax_row_top.
Qed.

Lemma predicted_class_has_largest_probability_witness :
  exists spec preds classes probabilities cs ps,
    fst (cnn_model_fn (feats 3) (y_of 3) ModeKeys.PREDICT empty_graph) =
      Returned spec /\
    EstimatorSpec.predictions spec = Some preds /\
    preds !! "classes" = Some classes /\
    preds !! "probabilities" = Some probabilities /\
    eval sample_oracle [] classes = Some (Ints cs) /\
    eval sample_oracle [] probabilities = Some (Floats ps) /\
    Forall2 (fun c prow =>
               exists p, nth_error prow (Z.to_nat c) = Some p /\
                         (p <= 1)%R /\
                         Forall (fun q => (0 <= q <= p)%R) prow)
            cs ps.
Proof.
  apply (predicted_class_has_largest_probability (feats 3) (y_of 3)
           empty_graph (x784 3) [3; 784]%N 3%N sample_oracle [] sample_logits);
    try reflexivity.
  repeat constructor; discriminate.
Defined.


(** X12: in every mode the graph of a call on a well-shaped input has a
    tensor named "softmax_tensor", the softmax of the logits: the name the
    logging hook of the driver asks for (line 155) is the name line 95
    gives. *)
Theorem graph_has_the_logged_tensor features labels mode g x s B :
  features !! "x" = Some x ->
  shape_of x = Some s -> numel s = (B * 784)%N ->
  has_tensor (snd (cnn_model_fn features labels mode g)) "softmax_tensor" = true /\
  exists dropout,
    In (Softmax (Dense dropout 10 None) "softmax_tensor")
       (nodes (snd (cnn_model_fn features labels mode g))) /\
    tensor_name (Softmax (Dense dropout 10 None) "softmax_tensor") =
      Some "softmax_tensor".
Proof.
  intros Hx Hs Hn.
  destruct (cnn_model_fn_creates_forward features labels mode g x s B Hx Hs Hn)
    as [rest Hnodes].
  split.
  - unfold has_tensor. rewrite Hnodes, !existsb_app.
    apply orb_true_iff. right. apply orb_true_iff. left.
    vm_compute. reflexivity.
  - eexists. split; [|reflexivity]. rewrite Hnodes.
    apply in_or_app. right. apply in_or_app. left.
    unfold forward_ops. cbn [In]. do 10 right. left. reflexivity.
Qed.

Lemma graph_has_the_logged_tensor_witness :
  has_tensor (snd (cnn_model_fn (feats 3) (y_of 3) ModeKeys.TRAIN empty_graph))
    "softmax_tensor" = true /\
  exists dropout,
    In (Softmax (Dense dropout 10 None) "softmax_tensor")
       (nodes (snd (cnn_model_fn (feats 3) (y_of 3) ModeKeys.TRAIN empty_graph))) /\
    tensor_name (Softmax (Dense dropout 10 None) "softmax_tensor") =
      Some "softmax_tensor".
Proof.
  apply (graph_has_the_logged_tensor (feats 3) (y_of 3) ModeKeys.TRAIN
           empty_graph (x784 3) [3; 784]%N 3%N); reflexivity.
Defined.

(** * Further properties of the driver *)

Lemma load_missing {R} (w : world) name :
  datasets w !! name = None ->
  @tf.contrib.learn.datasets.load_dataset R name w = (Raised (IOError name), w).
Proof.
  intros Hd. unfold tf.contrib.learn.datasets.load_dataset.
  change (match datasets w !! name with
          | Some d0 => mret d0
          | None => raise (IOError name)
          end w = (@Raised R Datasets (IOError name), w)).
  now rewrite Hd.
Qed.

(** X14: without the "mnist" data set the driver raises the loader's
    error at once and does nothing else. *)
Theorem main_without_data_raises unused_argv w :
  datasets w !! "mnist" = None ->
  main unused_argv w = (Raised (IOError "mnist"), w).
Proof.
  intros Hd. unfold main.
  change (mbind ?k (tf.contrib.learn.datasets.load_dataset "mnist") w)
    with (bind (tf.contrib.learn.datasets.load_dataset "mnist") k w).
  unfold bind at 1. now rewrite (load_missing w "mnist" Hd).
Qed.

Lemma main_without_data_raises_witness :
  main [] (World ∅ []) = (Raised (IOError "mnist"), World ∅ []).
Proof.
  apply (main_without_data_raises [] (World ∅ [])). reflexivity.
Defined.

Ltac whd_driver :=
  lazymatch goal with
  | |- ?P ?l =>
      let l' := eval lazy head beta iota zeta
                  delta -[cnn_model_fn map_to_list has_tensor] in l in
      change (P l')
  end.

Ltac close_driver :=
  unfold driver_summary; cbn [fst snd datasets events];
  split; [eexists; reflexivity |
  split; [reflexivity |
  first [ exists []; split; [now rewrite app_nil_r | split; [cbn; lia | reflexivity]]
        | eexists; split; [reflexivity | split; [cbn; lia | reflexivity]] ]]].

Lemma main_driver_summary unused_argv w :
  driver_summary w (main unused_argv w).
Proof.
  destruct (datasets w !! "mnist") as [d|] eqn:Hd.
  2:{ unfold main.
      change (mbind ?k (tf.contrib.learn.datasets.load_dataset "mnist") w)
        with (bind (tf.contrib.learn.datasets.load_dataset "mnist") k w).
      unfold bind at 1. rewrite (load_missing w "mnist" Hd). close_driver. }
  unfold main.
  change (mbind ?k (tf.contrib.learn.datasets.load_dataset "mnist") w)
    with (bind (tf.contrib.learn.datasets.load_dataset "mnist") k w).
  unfold bind at 1. rewrite (load_mnist w d Hd).
  whd_driver.
  match goal with
  | |- context [cnn_model_fn ?f ?l ?m ?g0] =>
      destruct (cnn_model_fn f l m g0) as [[a | spec | e] g1]
  end; whd_driver.
  - close_driver.
  - cbn [tensors tf.train.LoggingTensorHook map concat].
    rewrite map_to_list_singleton. cbn [fmap list_fmap snd app List.filter].
    destruct (has_tensor g1 "softmax_tensor"); cbn [negb]; whd_driver.
    + match goal with
      | |- context [cnn_model_fn ?f ?l ?m ?g0] =>
          pose proof (fun sp =>
                        other_mode_never_returns f l m g0 sp eq_refl eq_refl)
            as Hnever;
          destruct (cnn_model_fn f l m g0) as [[a | spec' | e] g2]
      end; whd_driver.
      * close_driver.
      * exfalso. exact (Hnever spec' eq_refl).
      * close_driver.
    + close_driver.
  - close_driver.
Qed.

(** X13: whatever data sets are there, the driver never returns normally:
    it raises, leaves the data sets alone, and records at most one event,
    a training; no evaluation is ever recorded and nothing is printed. *)
Theorem main_never_evaluates_or_prints unused_argv w :
  (exists e, fst (main unused_argv w) = Raised e) /\
  datasets (snd (main unused_argv w)) = datasets w /\
  exists evs,
    events (snd (main unused_argv w)) = (events w ++ evs)%list /\
    length evs <= 1 /\
    forallb is_trained evs = true.
Proof. exact (main_driver_summary unused_argv w). Qed.
